(** * The DMA transfer controller of [YOLO System/ZCU102_HW/main.c]

    [main] is embedded as a labelled transition system: one control
    point per statement of the C function (named after its source line),
    a record for the variables it owns, and the chronological list of the
    calls it makes into the board support package (DMA driver, cache,
    console, sleep).  The answers of the hardware are supplied by a
    [platform] record, so the development covers every behaviour of the
    DMA engine and can also be run on a test double. *)

From Stdlib Require Import ZArith String List Lia.
From stdpp Require Import base list.
Import ListNotations.

Local Open Scope string_scope.
Local Open Scope list_scope.
Local Open Scope Z_scope.

(** * The program

    ** Constants of the translation unit

    The macros [DDR_BASEADDR], [MEM_BASE_ADDR] and [TX_BUFFER_BASE] of
    lines 17 to 20 are not used by [main] and have no counterpart here. *)

(** [#define IMG_LENGTH 173056] *)
Definition IMG_LENGTH : Z := 173056.
(** [#define POLL_TIMEOUT_COUNTER 1000000U] *)
Definition POLL_TIMEOUT_COUNTER : Z := 1000000.
(** [sizeof(uint32_t)] *)
Definition sizeof_uint32_t : Z := 4.
(** [xstatus.h] and [xaxidma_hw.h] of the Xilinx board support package. *)
Definition XST_SUCCESS : Z := 0.
Definition XST_FAILURE : Z := 1.
Definition XAXIDMA_DMA_TO_DEVICE : Z := 0.

(** Conversion to [uint32_t], the element type of [TxBuffer]. *)
Definition uint32 (v : Z) : Z := v mod 2 ^ 32.

(** ** Calls that leave the program *)

(** One constructor per function of the board support package that
    [main] calls, with the arguments passed and the value returned.  The
    DMA instance [&AxiDma] is the same in every call and is left out.
    Format strings are the literals of the source, character for
    character (the escape sequence at their end is not interpreted). *)
Inductive event : Type :=
| xil_printf (fmt : string) (args : list Z)
| LookupConfig (DeviceId : Z) (ret : Z)
| CfgInitialize (Config : Z) (ret : Z)
| DCacheFlushRange (adr : Z) (len : Z)
| SimpleTransfer (BuffAddr : Z) (Length : Z) (Direction : Z) (ret : Z)
| Busy (Direction : Z) (ret : Z)
| usleep (useconds : Z).

(** ** The platform: everything [main.c] takes from outside

    [hex_values] is the table of [img2.h], [DMA_DEV_ID] comes from
    [xparameters.h], [TxBuffer_addr] is where the linker places the
    buffer.  Pointers are addresses, [0] is [NULL].  The configuration
    lookup is a table search and the initialization happens once, so both
    depend on their argument only; the answers to a transfer request and
    to a busy query may depend on everything that happened before. *)

Record platform : Type := {
  hex_values : list Z;
  DMA_DEV_ID : Z;
  TxBuffer_addr : Z;
  XAxiDma_LookupConfig : Z -> Z;
  XAxiDma_CfgInitialize : Z -> Z;
  XAxiDma_SimpleTransfer : list event -> Z -> Z -> Z -> Z;
  XAxiDma_Busy : list event -> Z -> Z
}.

(** ** Control points and program state *)

(** How [main] can end: a [return], or behaviour the C standard leaves
    undefined (a read beyond the end of the table of [img2.h]). *)
Inductive outcome : Type :=
| Returned (code : Z)
| Undefined.

(** [Ln] is the statement on line [n] of [main.c], about to be run.  The
    [for] of line 49 has three parts; [L55] is the test of [while(1)];
    [L69] is the [break]; [L83] is the idle loop after the service loop
    and [L87] the final [return 0]. *)
Inductive label : Type :=
| L31 | L34 | L35 | L36 | L37
| L40 | L41 | L42 | L43 | L45
| L49_init | L49_test | L50 | L49_incr
| L54 | L55 | L57 | L58 | L59 | L60
| L65 | L66 | L67 | L68 | L69 | L71 | L72
| L75 | L76 | L77 | L80
| L83 | L87
| Done (o : outcome).

(** The variables of the translation unit that [main] uses, and the
    calls made so far, oldest first.  [status], [i] and [TimeOut] are
    [int]; they hold [0] until their first assignment, and the
    arithmetic on them ([i++], [TimeOut--]) stays far from the limits of
    [int] (lemma [int_arithmetic_in_range]). *)
Record state : Type := {
  pc : label;
  DMA_Cfg : Z;
  status : Z;
  i : Z;
  TimeOut : Z;
  TxBuffer : list Z;
  trace : list event
}.

Definition goto (l : label) (s : state) : state :=
  {| pc := l; DMA_Cfg := DMA_Cfg s; status := status s; i := i s;
     TimeOut := TimeOut s; TxBuffer := TxBuffer s; trace := trace s |}.

Definition emit (e : event) (s : state) : state :=
  {| pc := pc s; DMA_Cfg := DMA_Cfg s; status := status s; i := i s;
     TimeOut := TimeOut s; TxBuffer := TxBuffer s; trace := trace s ++ [e] |}.

Definition set_DMA_Cfg (v : Z) (s : state) : state :=
  {| pc := pc s; DMA_Cfg := v; status := status s; i := i s;
     TimeOut := TimeOut s; TxBuffer := TxBuffer s; trace := trace s |}.

Definition set_status (v : Z) (s : state) : state :=
  {| pc := pc s; DMA_Cfg := DMA_Cfg s; status := v; i := i s;
     TimeOut := TimeOut s; TxBuffer := TxBuffer s; trace := trace s |}.

Definition set_i (v : Z) (s : state) : state :=
  {| pc := pc s; DMA_Cfg := DMA_Cfg s; status := status s; i := v;
     TimeOut := TimeOut s; TxBuffer := TxBuffer s; trace := trace s |}.

Definition set_TimeOut (v : Z) (s : state) : state :=
  {| pc := pc s; DMA_Cfg := DMA_Cfg s; status := status s; i := i s;
     TimeOut := v; TxBuffer := TxBuffer s; trace := trace s |}.

Definition set_TxBuffer (b : list Z) (s : state) : state :=
  {| pc := pc s; DMA_Cfg := DMA_Cfg s; status := status s; i := i s;
     TimeOut := TimeOut s; TxBuffer := b; trace := trace s |}.

Arguments goto l s /.
Arguments emit e s /.
Arguments set_DMA_Cfg v s /.
Arguments set_status v s /.
Arguments set_i v s /.
Arguments set_TimeOut v s /.
Arguments set_TxBuffer b s /.

(** [TxBuffer] is a global: zero-initialized, [IMG_LENGTH] words. *)
Definition TxBuffer_init : list Z := replicate (Z.to_nat IMG_LENGTH) 0.

Definition init : state :=
  {| pc := L31; DMA_Cfg := 0; status := 0; i := 0; TimeOut := 0;
     TxBuffer := TxBuffer_init; trace := [] |}.

(** ** One statement of [main] *)

(** A test sends control to the first statement of the branch taken;
    [return] leads to [Done]; the closing brace of the service loop
    (line 81) leads back to its test. *)
Definition main_step (hw : platform) (s : state) : state :=
  match pc s with
  (* xil_printf(...) *)
  | L31 => goto L34 (emit (xil_printf "Welcome from the main function\n" []) s)
  (* DMA_Cfg = XAxiDma_LookupConfig(DMA_DEV_ID) *)
  | L34 =>
      let r := XAxiDma_LookupConfig hw (DMA_DEV_ID hw) in
      goto L35 (emit (LookupConfig (DMA_DEV_ID hw) r) (set_DMA_Cfg r s))
  (* if (!DMA_Cfg) *)
  | L35 => if DMA_Cfg s =? 0 then goto L36 s else goto L40 s
  | L36 => goto L37 (emit (xil_printf "DMA config lookup failed\n" []) s)
  (* return XST_FAILURE *)
  | L37 => goto (Done (Returned XST_FAILURE)) s
  (* status = XAxiDma_CfgInitialize(&AxiDma, DMA_Cfg) *)
  | L40 =>
      let r := XAxiDma_CfgInitialize hw (DMA_Cfg s) in
      goto L41 (emit (CfgInitialize (DMA_Cfg s) r) (set_status r s))
  (* if (status != XST_SUCCESS) ... else ... *)
  | L41 => if status s =? XST_SUCCESS then goto L45 s else goto L42 s
  | L42 => goto L43 (emit (xil_printf "DMA init failed - %x\n" [status s]) s)
  (* return XST_FAILURE *)
  | L43 => goto (Done (Returned XST_FAILURE)) s
  | L45 =>
      goto L49_init (emit (xil_printf "DMA init success - %x\n" [status s]) s)
  (* for (int i = 0; i < IMG_LENGTH; i++) *)
  | L49_init => goto L49_test (set_i 0 s)
  | L49_test => if i s <? IMG_LENGTH then goto L50 s else goto L54 s
  (* TxBuffer[i] = hex_values[i] *)
  | L50 =>
      match hex_values hw !! Z.to_nat (i s) with
      | Some v =>
          goto L49_incr
            (set_TxBuffer (<[Z.to_nat (i s) := uint32 v]> (TxBuffer s)) s)
      | None => goto (Done Undefined) s
      end
  | L49_incr => goto L49_test (set_i (i s + 1) s)
  (* Xil_DCacheFlushRange((UINTPTR)TxBuffer, IMG_LENGTH * sizeof(uint32_t)) *)
  | L54 =>
      goto L55
        (emit (DCacheFlushRange (TxBuffer_addr hw)
                 (IMG_LENGTH * sizeof_uint32_t)) s)
  (* while(1) *)
  | L55 => if 1 =? 0 then goto L83 s else goto L57 s
  (* status = XAxiDma_SimpleTransfer(&AxiDma, (UINTPTR)TxBuffer,
              IMG_LENGTH * sizeof(uint32_t), XAXIDMA_DMA_TO_DEVICE) *)
  | L57 =>
      let r :=
        XAxiDma_SimpleTransfer hw (trace s) (TxBuffer_addr hw)
          (IMG_LENGTH * sizeof_uint32_t) XAXIDMA_DMA_TO_DEVICE in
      goto L58
        (emit (SimpleTransfer (TxBuffer_addr hw)
                 (IMG_LENGTH * sizeof_uint32_t) XAXIDMA_DMA_TO_DEVICE r)
           (set_status r s))
  (* if (status != XST_SUCCESS) *)
  | L58 => if status s =? XST_SUCCESS then goto L65 s else goto L59 s
  | L59 =>
      goto L60 (emit (xil_printf "DMA transfer failed - %x\n" [status s]) s)
  (* return XST_FAILURE *)
  | L60 => goto (Done (Returned XST_FAILURE)) s
  (* int TimeOut = POLL_TIMEOUT_COUNTER *)
  | L65 => goto L66 (set_TimeOut POLL_TIMEOUT_COUNTER s)
  (* while (TimeOut) *)
  | L66 => if TimeOut s =? 0 then goto L75 s else goto L67 s
  (* if (!XAxiDma_Busy(&AxiDma, XAXIDMA_DMA_TO_DEVICE)) *)
  | L67 =>
      let r := XAxiDma_Busy hw (trace s) XAXIDMA_DMA_TO_DEVICE in
      let s' := emit (Busy XAXIDMA_DMA_TO_DEVICE r) s in
      if r =? 0 then goto L68 s' else goto L71 s'
  | L68 =>
      goto L69 (emit (xil_printf "DMA transfer completed successfully\n" []) s)
  (* break *)
  | L69 => goto L75 s
  (* TimeOut-- *)
  | L71 => goto L72 (set_TimeOut (TimeOut s - 1) s)
  (* usleep(1U) *)
  | L72 => goto L66 (emit (usleep 1) s)
  (* if (TimeOut == 0) *)
  | L75 => if TimeOut s =? 0 then goto L76 s else goto L80 s
  | L76 => goto L77 (emit (xil_printf "DMA transfer timed out\n" []) s)
  (* return XST_FAILURE *)
  | L77 => goto (Done (Returned XST_FAILURE)) s
  | L80 =>
      goto L55 (emit (xil_printf "Image sent via DMA successfully\n" []) s)
  (* while (1) { } *)
  | L83 => goto L83 s
  (* return 0 *)
  | L87 => goto (Done (Returned 0)) s
  | Done _ => s
  end.

(** [run hw n s]: the state after [n] statements. *)
Fixpoint run (hw : platform) (n : nat) (s : state) : state :=
  match n with
  | O => s
  | S n' => run hw n' (main_step hw s)
  end.

(** [main] on platform [hw], observed after [n] statements. *)
Definition main (hw : platform) (n : nat) : state := run hw n init.

(** * Vocabulary of the statements

    ** Events and control points *)

(** The events of [length rs] unsuccessful polls with answers [rs]: each
    busy query is followed by the one-microsecond wait. *)
Definition polls (rs : list Z) : list event :=
  flat_map (fun r => [Busy XAXIDMA_DMA_TO_DEVICE r; usleep 1]) rs.

Definition is_flush (e : event) : bool :=
  match e with DCacheFlushRange _ _ => true | _ => false end.

Definition is_start (e : event) : bool :=
  match e with SimpleTransfer _ _ _ _ => true | _ => false end.

(** A transfer is started when the driver accepts the request. *)
Definition transfer_started (e : event) : bool :=
  match e with SimpleTransfer _ _ _ r => r =? XST_SUCCESS | _ => false end.

(** Lines 55 to 81: the service loop. *)
Definition in_loop (l : label) : bool :=
  match l with
  | L55 | L57 | L58 | L59 | L60 | L65 | L66 | L67 | L68 | L69 | L71 | L72
  | L75 | L76 | L77 | L80 => true
  | _ => false
  end.

(** Line 54 and the service loop: everything after the copy loop. *)
Definition after_population (l : label) : bool :=
  match l with
  | L54 => true
  | _ => in_loop l
  end.

(** Lines 31 to 54: everything before the service loop. *)
Definition before_loop (l : label) : bool :=
  match l with
  | L31 | L34 | L35 | L36 | L37 | L40 | L41 | L42 | L43 | L45
  | L49_init | L49_test | L50 | L49_incr | L54 => true
  | _ => false
  end.

(** ** One transfer attempt *)

(** The request of line 57 as it appears in the trace. *)
Definition start_event (hw : platform) (r : Z) : event :=
  SimpleTransfer (TxBuffer_addr hw) (IMG_LENGTH * sizeof_uint32_t)
    XAXIDMA_DMA_TO_DEVICE r.

(** What the driver answers to the request of line 57 in state [s]. *)
Definition start_answer (hw : platform) (s : state) : Z :=
  XAxiDma_SimpleTransfer hw (trace s) (TxBuffer_addr hw)
    (IMG_LENGTH * sizeof_uint32_t) XAXIDMA_DMA_TO_DEVICE.

(** What the engine answers to the busy query of line 67 in state [s]. *)
Definition busy_answer (hw : platform) (s : state) : Z :=
  XAxiDma_Busy hw (trace s) XAXIDMA_DMA_TO_DEVICE.

(** ** Failure points *)

Inductive failure : Type :=
| ConfigMissing
| InitFailed
| StartRejected
| PollTimeout.

(** The failure that is about to be observed in state [s]: the lookup of
    line 34 will return [NULL], the initialization of line 40 or the
    request of line 57 will return something else than [XST_SUCCESS], or
    line 75 is reached with the budget at zero. *)
Definition failure_at (hw : platform) (s : state) : option failure :=
  match pc s with
  | L34 =>
      if XAxiDma_LookupConfig hw (DMA_DEV_ID hw) =? 0
      then Some ConfigMissing else None
  | L40 =>
      if XAxiDma_CfgInitialize hw (DMA_Cfg s) =? XST_SUCCESS
      then None else Some InitFailed
  | L57 =>
      if start_answer hw s =? XST_SUCCESS then None else Some StartRejected
  | L75 => if TimeOut s =? 0 then Some PollTimeout else None
  | _ => None
  end.

(** The call whose result is the failure (none for the timeout). *)
Definition failure_call (hw : platform) (s : state) (f : failure)
  : list event :=
  match f with
  | ConfigMissing => [LookupConfig (DMA_DEV_ID hw) 0]
  | InitFailed =>
      [CfgInitialize (DMA_Cfg s) (XAxiDma_CfgInitialize hw (DMA_Cfg s))]
  | StartRejected => [start_event hw (start_answer hw s)]
  | PollTimeout => []
  end.

(** The message printed for the failure. *)
Definition failure_report (hw : platform) (s : state) (f : failure) : event :=
  match f with
  | ConfigMissing => xil_printf "DMA config lookup failed\n" []
  | InitFailed =>
      xil_printf "DMA init failed - %x\n"
        [XAxiDma_CfgInitialize hw (DMA_Cfg s)]
  | StartRejected =>
      xil_printf "DMA transfer failed - %x\n" [start_answer hw s]
  | PollTimeout => xil_printf "DMA transfer timed out\n" []
  end.

Definition failure_events (hw : platform) (s : state) (f : failure)
  : list event :=
  failure_call hw s f ++ [failure_report hw s f].

(** ** Payload and buffer *)

(** The first [k] words of [buf] are the first [k] words of the table,
    converted to [uint32_t]. *)
Definition copied (hw : platform) (buf : list Z) (k : Z) : Prop :=
  forall j : nat, Z.of_nat j < k ->
    exists v, hex_values hw !! j = Some v /\ buf !! j = Some (uint32 v).

(** The table of [img2.h] has at least [IMG_LENGTH] entries. *)
Definition payload_present (hw : platform) : Prop :=
  IMG_LENGTH <= Z.of_nat (length (hex_values hw)).

(** The entries of the table are 32-bit words. *)
Definition payload_words (hw : platform) : Prop :=
  Forall (fun v => 0 <= v < 2 ^ 32) (hex_values hw).

(** ** Shape of the traces *)

(** Before the flush of line 54 the trace holds neither a flush nor a
    transfer request. *)
Definition unflushed (tr : list event) : Prop :=
  Forall (fun e => is_flush e = false /\ is_start e = false) tr.

(** The trace holds one flush, of the whole buffer; no flush and no
    transfer request comes before it and no flush after it. *)
Definition flushed_once (hw : platform) (tr : list event) : Prop :=
  exists pre post,
    tr = pre ++
         DCacheFlushRange (TxBuffer_addr hw) (IMG_LENGTH * sizeof_uint32_t)
         :: post /\
    unflushed pre /\
    Forall (fun e => is_flush e = false) post.

(** The arguments of a transfer request: the buffer, its size in bytes
    (173,056 words of 4 bytes), memory to device. *)
Definition start_args_ok (hw : platform) (e : event) : Prop :=
  match e with
  | SimpleTransfer a l d _ =>
      a = TxBuffer_addr hw /\ l = 692224 /\ d = XAXIDMA_DMA_TO_DEVICE
  | _ => True
  end.

(** What has been printed and called when the copy loop starts. *)
Definition boot_trace (hw : platform) : list event :=
  [xil_printf "Welcome from the main function\n" [];
   LookupConfig (DMA_DEV_ID hw) (XAxiDma_LookupConfig hw (DMA_DEV_ID hw));
   CfgInitialize (XAxiDma_LookupConfig hw (DMA_DEV_ID hw)) XST_SUCCESS;
   xil_printf "DMA init success - %x\n" [XST_SUCCESS]].

(** Everything the program ever does when the device has no
    configuration. *)
Definition missing_config_trace (hw : platform) : list event :=
  [xil_printf "Welcome from the main function\n" [];
   LookupConfig (DMA_DEV_ID hw) 0;
   xil_printf "DMA config lookup failed\n" []].

(** Everything the program ever does when the initialization fails. *)
Definition init_failure_trace (hw : platform) : list event :=
  [xil_printf "Welcome from the main function\n" [];
   LookupConfig (DMA_DEV_ID hw) (XAxiDma_LookupConfig hw (DMA_DEV_ID hw));
   CfgInitialize (XAxiDma_LookupConfig hw (DMA_DEV_ID hw))
     (XAxiDma_CfgInitialize hw (XAxiDma_LookupConfig hw (DMA_DEV_ID hw)));
   xil_printf "DMA init failed - %x\n"
     [XAxiDma_CfgInitialize hw (XAxiDma_LookupConfig hw (DMA_DEV_ID hw))]].

(** ** Assertions at the control points *)

(** What holds at each control point of a run of [main] ([False] at the
    two that are never reached). *)
Definition assertion (hw : platform) (s : state) : Prop :=
  length (TxBuffer s) = Z.to_nat IMG_LENGTH /\
  Forall (start_args_ok hw) (trace s) /\
  match pc s with
  | L31 | L34 | L35 | L36 | L37 | L40 | L41 | L42 | L43 | L45 | L49_init =>
      unflushed (trace s) /\ TxBuffer s = TxBuffer_init
  | L49_test =>
      unflushed (trace s) /\ 0 <= i s <= IMG_LENGTH /\
      copied hw (TxBuffer s) (i s)
  | L50 =>
      unflushed (trace s) /\ 0 <= i s < IMG_LENGTH /\
      copied hw (TxBuffer s) (i s)
  | L49_incr =>
      unflushed (trace s) /\ 0 <= i s < IMG_LENGTH /\
      copied hw (TxBuffer s) (i s + 1)
  | L54 => unflushed (trace s) /\ copied hw (TxBuffer s) IMG_LENGTH
  | L55 | L57 | L58 | L59 | L60 | L65 | L76 | L77 | L80 =>
      flushed_once hw (trace s) /\ copied hw (TxBuffer s) IMG_LENGTH
  | L66 | L75 =>
      flushed_once hw (trace s) /\ copied hw (TxBuffer s) IMG_LENGTH /\
      0 <= TimeOut s <= POLL_TIMEOUT_COUNTER
  | L67 | L68 | L69 | L71 =>
      flushed_once hw (trace s) /\ copied hw (TxBuffer s) IMG_LENGTH /\
      0 < TimeOut s <= POLL_TIMEOUT_COUNTER
  | L72 =>
      flushed_once hw (trace s) /\ copied hw (TxBuffer s) IMG_LENGTH /\
      0 <= TimeOut s < POLL_TIMEOUT_COUNTER
  | L83 | L87 => False
  | Done (Returned c) =>
      c = XST_FAILURE /\
      (unflushed (trace s) \/
       (flushed_once hw (trace s) /\ copied hw (TxBuffer s) IMG_LENGTH))
  | Done Undefined => unflushed (trace s)
  end.

(** ** Answers of the engine during one attempt *)

(** [rs] are the answers the engine gives to consecutive busy queries
    when the first is made with history [tr]: each is what the platform
    answers after the queries and waits before it, and each says busy. *)
Fixpoint busy_answers (hw : platform) (tr : list event) (rs : list Z)
  : Prop :=
  match rs with
  | [] => True
  | r :: rs' =>
      r = XAxiDma_Busy hw tr XAXIDMA_DMA_TO_DEVICE /\ r <> 0 /\
      busy_answers hw (tr ++ [Busy XAXIDMA_DMA_TO_DEVICE r; usleep 1]) rs'
  end.

(** The three events that close a successful attempt. *)
Definition completion_events : list event :=
  [Busy XAXIDMA_DMA_TO_DEVICE 0;
   xil_printf "DMA transfer completed successfully\n" [];
   xil_printf "Image sent via DMA successfully\n" []].

(** ** Order of the events *)

(** [next_event hw e1 e2]: in a trace of [main], [e2] may come directly
    after [e1].  The value printed with a failure message is the value
    the call before it returned; a transfer request comes after the
    flush or after the last message of the previous attempt. *)
Inductive next_event (hw : platform) : event -> event -> Prop :=
| after_welcome :
    next_event hw
      (xil_printf "Welcome from the main function\n" [])
      (LookupConfig (DMA_DEV_ID hw) (XAxiDma_LookupConfig hw (DMA_DEV_ID hw)))
| after_lookup_null d :
    next_event hw
      (LookupConfig d 0)
      (xil_printf "DMA config lookup failed\n" [])
| after_lookup d c :
    c <> 0 ->
    next_event hw
      (LookupConfig d c)
      (CfgInitialize c (XAxiDma_CfgInitialize hw c))
| after_init_failure c r :
    r <> XST_SUCCESS ->
    next_event hw
      (CfgInitialize c r)
      (xil_printf "DMA init failed - %x\n" [r])
| after_init_success c :
    next_event hw
      (CfgInitialize c XST_SUCCESS)
      (xil_printf "DMA init success - %x\n" [XST_SUCCESS])
| after_init_message :
    next_event hw
      (xil_printf "DMA init success - %x\n" [XST_SUCCESS])
      (DCacheFlushRange (TxBuffer_addr hw) (IMG_LENGTH * sizeof_uint32_t))
| after_flush r :
    next_event hw
      (DCacheFlushRange (TxBuffer_addr hw) (IMG_LENGTH * sizeof_uint32_t))
      (start_event hw r)
| after_rejection r :
    r <> XST_SUCCESS ->
    next_event hw
      (start_event hw r)
      (xil_printf "DMA transfer failed - %x\n" [r])
| after_acceptance r :
    next_event hw
      (start_event hw XST_SUCCESS)
      (Busy XAXIDMA_DMA_TO_DEVICE r)
| after_busy_answer r :
    r <> 0 ->
    next_event hw (Busy XAXIDMA_DMA_TO_DEVICE r) (usleep 1)
| after_idle_answer :
    next_event hw
      (Busy XAXIDMA_DMA_TO_DEVICE 0)
      (xil_printf "DMA transfer completed successfully\n" [])
| after_wait r :
    next_event hw (usleep 1) (Busy XAXIDMA_DMA_TO_DEVICE r)
| after_last_wait :
    next_event hw (usleep 1) (xil_printf "DMA transfer timed out\n" [])
| after_completion :
    next_event hw
      (xil_printf "DMA transfer completed successfully\n" [])
      (xil_printf "Image sent via DMA successfully\n" [])
| after_round r :
    next_event hw
      (xil_printf "Image sent via DMA successfully\n" [])
      (start_event hw r).

(** Every two neighbours of the trace are in [next_event]. *)
Definition ordered (hw : platform) (tr : list event) : Prop :=
  forall pre e1 e2 post, tr = pre ++ e1 :: e2 :: post -> next_event hw e1 e2.

(** The latest event of the trace is [e]. *)
Definition ends_with (tr : list event) (e : event) : Prop :=
  exists tr', tr = tr' ++ [e].

(** What the latest event is at each control point. *)
Definition order_assertion (hw : platform) (s : state) : Prop :=
  ordered hw (trace s) /\
  match pc s with
  | L31 => trace s = []
  | L34 =>
      ends_with (trace s) (xil_printf "Welcome from the main function\n" [])
  | L35 =>
      ends_with (trace s) (LookupConfig (DMA_DEV_ID hw) (DMA_Cfg s))
  | L36 =>
      ends_with (trace s) (LookupConfig (DMA_DEV_ID hw) (DMA_Cfg s)) /\
      DMA_Cfg s = 0
  | L40 =>
      ends_with (trace s) (LookupConfig (DMA_DEV_ID hw) (DMA_Cfg s)) /\
      DMA_Cfg s <> 0
  | L41 => ends_with (trace s) (CfgInitialize (DMA_Cfg s) (status s))
  | L42 =>
      ends_with (trace s) (CfgInitialize (DMA_Cfg s) (status s)) /\
      status s <> XST_SUCCESS
  | L45 =>
      ends_with (trace s) (CfgInitialize (DMA_Cfg s) (status s)) /\
      status s = XST_SUCCESS
  | L49_init | L49_test | L50 | L49_incr | L54 =>
      ends_with (trace s)
        (xil_printf "DMA init success - %x\n" [XST_SUCCESS])
  | L55 | L57 =>
      ends_with (trace s)
        (DCacheFlushRange (TxBuffer_addr hw)
           (IMG_LENGTH * sizeof_uint32_t)) \/
      ends_with (trace s)
        (xil_printf "Image sent via DMA successfully\n" [])
  | L58 => ends_with (trace s) (start_event hw (status s))
  | L59 =>
      ends_with (trace s) (start_event hw (status s)) /\
      status s <> XST_SUCCESS
  | L65 => ends_with (trace s) (start_event hw XST_SUCCESS)
  | L66 =>
      (ends_with (trace s) (start_event hw XST_SUCCESS) /\
       TimeOut s = POLL_TIMEOUT_COUNTER) \/
      ends_with (trace s) (usleep 1)
  | L67 =>
      ((ends_with (trace s) (start_event hw XST_SUCCESS) /\
        TimeOut s = POLL_TIMEOUT_COUNTER) \/
       ends_with (trace s) (usleep 1)) /\
      TimeOut s <> 0
  | L68 =>
      ends_with (trace s) (Busy XAXIDMA_DMA_TO_DEVICE 0) /\ TimeOut s <> 0
  | L69 =>
      ends_with (trace s)
        (xil_printf "DMA transfer completed successfully\n" []) /\
      TimeOut s <> 0
  | L71 | L72 =>
      exists r, ends_with (trace s) (Busy XAXIDMA_DMA_TO_DEVICE r) /\ r <> 0
  | L75 =>
      (ends_with (trace s)
         (xil_printf "DMA transfer completed successfully\n" []) /\
       TimeOut s <> 0) \/
      (ends_with (trace s) (usleep 1) /\ TimeOut s = 0)
  | L76 => ends_with (trace s) (usleep 1)
  | L80 =>
      ends_with (trace s)
        (xil_printf "DMA transfer completed successfully\n" [])
  | L37 | L43 | L60 | L77 | L83 | L87 | Done _ => True
  end.

(** One of the four messages that precede [return XST_FAILURE]. *)
Definition failure_message (e : event) : Prop :=
  e = xil_printf "DMA config lookup failed\n" [] \/
  (exists r, e = xil_printf "DMA init failed - %x\n" [r]) \/
  (exists r, e = xil_printf "DMA transfer failed - %x\n" [r]) \/
  e = xil_printf "DMA transfer timed out\n" [].

(** ** Why [main] returned *)

(** The driver accepts the request made with history [tr]. *)
Definition accepted (hw : platform) (tr : list event) : Prop :=
  XAxiDma_SimpleTransfer hw tr (TxBuffer_addr hw)
    (IMG_LENGTH * sizeof_uint32_t) XAXIDMA_DMA_TO_DEVICE = XST_SUCCESS.

(** The trace of a run that ended because the device has no
    configuration. *)
Definition ended_by_missing_config (hw : platform) (tr : list event)
  : Prop :=
  XAxiDma_LookupConfig hw (DMA_DEV_ID hw) = 0 /\
  tr = missing_config_trace hw.

(** ... because the initialization failed. *)
Definition ended_by_init_failure (hw : platform) (tr : list event) : Prop :=
  XAxiDma_LookupConfig hw (DMA_DEV_ID hw) <> 0 /\
  XAxiDma_CfgInitialize hw (XAxiDma_LookupConfig hw (DMA_DEV_ID hw))
    <> XST_SUCCESS /\
  tr = init_failure_trace hw.

(** ... because the driver rejected a request: the answer [r] it gave
    with history [tr'] is not [XST_SUCCESS]. *)
Definition ended_by_rejection (hw : platform) (tr : list event) : Prop :=
  exists tr' r,
    r = XAxiDma_SimpleTransfer hw tr' (TxBuffer_addr hw)
          (IMG_LENGTH * sizeof_uint32_t) XAXIDMA_DMA_TO_DEVICE /\
    r <> XST_SUCCESS /\
    tr = tr' ++ [start_event hw r; xil_printf "DMA transfer failed - %x\n" [r]].

(** ... because the engine answered busy to the 1,000,000 queries that
    followed an accepted request. *)
Definition ended_by_timeout (hw : platform) (tr : list event) : Prop :=
  exists tr' rs,
    accepted hw tr' /\
    busy_answers hw (tr' ++ [start_event hw XST_SUCCESS]) rs /\
    Z.of_nat (length rs) = POLL_TIMEOUT_COUNTER /\
    tr = tr' ++ [start_event hw XST_SUCCESS] ++ polls rs ++
         [xil_printf "DMA transfer timed out\n" []].

(** The trace of an attempt that is polling: an accepted request and the
    busy answers [rs] received so far, each followed by its wait. *)
Definition polling (hw : platform) (tr : list event) (rs : list Z) : Prop :=
  exists tr',
    accepted hw tr' /\
    busy_answers hw (tr' ++ [start_event hw XST_SUCCESS]) rs /\
    tr = tr' ++ [start_event hw XST_SUCCESS] ++ polls rs.

(** What is known at each control point about how the run got there. *)
Definition cause_assertion (hw : platform) (s : state) : Prop :=
  match pc s with
  | L31 => trace s = []
  | L34 => trace s = [xil_printf "Welcome from the main function\n" []]
  | L35 =>
      DMA_Cfg s = XAxiDma_LookupConfig hw (DMA_DEV_ID hw) /\
      trace s = [xil_printf "Welcome from the main function\n" [];
                 LookupConfig (DMA_DEV_ID hw) (DMA_Cfg s)]
  | L36 =>
      XAxiDma_LookupConfig hw (DMA_DEV_ID hw) = 0 /\
      trace s = [xil_printf "Welcome from the main function\n" [];
                 LookupConfig (DMA_DEV_ID hw) 0]
  | L37 => ended_by_missing_config hw (trace s)
  | L40 =>
      DMA_Cfg s = XAxiDma_LookupConfig hw (DMA_DEV_ID hw) /\
      DMA_Cfg s <> 0 /\
      trace s = [xil_printf "Welcome from the main function\n" [];
                 LookupConfig (DMA_DEV_ID hw) (DMA_Cfg s)]
  | L41 =>
      DMA_Cfg s = XAxiDma_LookupConfig hw (DMA_DEV_ID hw) /\
      DMA_Cfg s <> 0 /\
      status s = XAxiDma_CfgInitialize hw (DMA_Cfg s) /\
      trace s = [xil_printf "Welcome from the main function\n" [];
                 LookupConfig (DMA_DEV_ID hw) (DMA_Cfg s);
                 CfgInitialize (DMA_Cfg s) (status s)]
  | L42 =>
      DMA_Cfg s = XAxiDma_LookupConfig hw (DMA_DEV_ID hw) /\
      DMA_Cfg s <> 0 /\
      status s = XAxiDma_CfgInitialize hw (DMA_Cfg s) /\
      status s <> XST_SUCCESS /\
      trace s = [xil_printf "Welcome from the main function\n" [];
                 LookupConfig (DMA_DEV_ID hw) (DMA_Cfg s);
                 CfgInitialize (DMA_Cfg s) (status s)]
  | L43 => ended_by_init_failure hw (trace s)
  | L58 =>
      exists tr',
        status s =
          XAxiDma_SimpleTransfer hw tr' (TxBuffer_addr hw)
            (IMG_LENGTH * sizeof_uint32_t) XAXIDMA_DMA_TO_DEVICE /\
        trace s = tr' ++ [start_event hw (status s)]
  | L59 =>
      exists tr',
        status s =
          XAxiDma_SimpleTransfer hw tr' (TxBuffer_addr hw)
            (IMG_LENGTH * sizeof_uint32_t) XAXIDMA_DMA_TO_DEVICE /\
        status s <> XST_SUCCESS /\
        trace s = tr' ++ [start_event hw (status s)]
  | L60 => ended_by_rejection hw (trace s)
  | L65 => polling hw (trace s) []
  | L66 =>
      exists rs,
        polling hw (trace s) rs /\
        Z.of_nat (length rs) = POLL_TIMEOUT_COUNTER - TimeOut s
  | L67 =>
      exists rs,
        polling hw (trace s) rs /\
        Z.of_nat (length rs) = POLL_TIMEOUT_COUNTER - TimeOut s /\
        TimeOut s <> 0
  | L68 | L69 => TimeOut s <> 0
  | L71 =>
      exists rs,
        polling hw (trace s ++ [usleep 1]) rs /\
        Z.of_nat (length rs) = POLL_TIMEOUT_COUNTER - TimeOut s + 1
  | L72 =>
      exists rs,
        polling hw (trace s ++ [usleep 1]) rs /\
        Z.of_nat (length rs) = POLL_TIMEOUT_COUNTER - TimeOut s
  | L75 =>
      TimeOut s = 0 ->
      exists rs,
        polling hw (trace s) rs /\
        Z.of_nat (length rs) = POLL_TIMEOUT_COUNTER
  | L76 =>
      exists rs,
        polling hw (trace s) rs /\
        Z.of_nat (length rs) = POLL_TIMEOUT_COUNTER
  | L77 => ended_by_timeout hw (trace s)
  | Done (Returned c) =>
      c = XST_FAILURE /\
      (ended_by_missing_config hw (trace s) \/
       ended_by_init_failure hw (trace s) \/
       ended_by_rejection hw (trace s) \/
       ended_by_timeout hw (trace s))
  | L83 | L87 => False
  | _ => True
  end.

Definition is_init (e : event) : bool :=
  match e with CfgInitialize _ _ => true | _ => false end.

(** The number of transfer requests in a trace. *)
Fixpoint requests (tr : list event) : nat :=
  match tr with
  | [] => O
  | e :: tr' => ((if is_start e then 1 else 0) + requests tr')%nat
  end.

(** * Test doubles

    Small platforms and states on which the statements below can be
    evaluated: an engine that is always busy, one that is never busy, a
    board whose configuration table has no entry for the device, an
    engine that refuses everything, and the reference board with a
    constant image. *)

Definition busy_engine : platform :=
  {| hex_values := [17; 34; 51; 68]; DMA_DEV_ID := 0; TxBuffer_addr := 4096;
     XAxiDma_LookupConfig := fun _ => 64;
     XAxiDma_CfgInitialize := fun _ => XST_SUCCESS;
     XAxiDma_SimpleTransfer := fun _ _ _ _ => XST_SUCCESS;
     XAxiDma_Busy := fun _ _ => 1 |}.

Definition idle_engine : platform :=
  {| hex_values := [17; 34; 51; 68]; DMA_DEV_ID := 0; TxBuffer_addr := 4096;
     XAxiDma_LookupConfig := fun _ => 64;
     XAxiDma_CfgInitialize := fun _ => XST_SUCCESS;
     XAxiDma_SimpleTransfer := fun _ _ _ _ => XST_SUCCESS;
     XAxiDma_Busy := fun _ _ => 0 |}.

Definition no_device : platform :=
  {| hex_values := []; DMA_DEV_ID := 0; TxBuffer_addr := 4096;
     XAxiDma_LookupConfig := fun _ => 0;
     XAxiDma_CfgInitialize := fun _ => XST_SUCCESS;
     XAxiDma_SimpleTransfer := fun _ _ _ _ => XST_SUCCESS;
     XAxiDma_Busy := fun _ _ => 0 |}.

(** An engine that rejects every request. *)
Definition rejecting_engine : platform :=
  {| hex_values := [17; 34; 51; 68]; DMA_DEV_ID := 0; TxBuffer_addr := 4096;
     XAxiDma_LookupConfig := fun _ => 64;
     XAxiDma_CfgInitialize := fun _ => 5;
     XAxiDma_SimpleTransfer := fun _ _ _ _ => 15;
     XAxiDma_Busy := fun _ _ => 0 |}.

(** A state at control point [l] with a four-word buffer. *)
Definition at_label (l : label) (t : Z) : state :=
  {| pc := l; DMA_Cfg := 64; status := 0; i := 0; TimeOut := t;
     TxBuffer := [17; 34; 51; 68]; trace := [] |}.

(** The board of the reference configuration with a constant image, and
    the program about to populate its zero-initialized buffer. *)
Definition image_board : platform :=
  {| hex_values := replicate (Z.to_nat IMG_LENGTH) 7; DMA_DEV_ID := 0;
     TxBuffer_addr := 4096;
     XAxiDma_LookupConfig := fun _ => 64;
     XAxiDma_CfgInitialize := fun _ => XST_SUCCESS;
     XAxiDma_SimpleTransfer := fun _ _ _ _ => XST_SUCCESS;
     XAxiDma_Busy := fun _ _ => 0 |}.

Definition before_population : state :=
  {| pc := L49_init; DMA_Cfg := 64; status := 0; i := 0; TimeOut := 0;
     TxBuffer := TxBuffer_init; trace := [] |}.

(** * Running the machine *)

(** Symbolic execution: run the statements whose control point is
    known, leave the tests on program variables for the caller. *)
Ltac exec :=
  cbn [run main_step goto emit set_DMA_Cfg set_status set_i set_TimeOut
       set_TxBuffer pc DMA_Cfg status i TimeOut TxBuffer trace Z.eqb].

Ltac exec_in H :=
  cbn [run main_step goto emit set_DMA_Cfg set_status set_i set_TimeOut
       set_TxBuffer pc DMA_Cfg status i TimeOut TxBuffer trace Z.eqb] in H.

Lemma TxBuffer_init_length : length TxBuffer_init = Z.to_nat IMG_LENGTH.
Proof. unfold TxBuffer_init. apply length_replicate. Qed.

Lemma main_eq hw (n : nat) : main hw n = run hw n init.
Proof. reflexivity. Qed.

Lemma run_S hw (n : nat) (s : state) :
  run hw (S n) s = run hw n (main_step hw s).
Proof. reflexivity. Qed.

Lemma run_O hw (s : state) : run hw O s = s.
Proof. reflexivity. Qed.

Lemma run_add hw (n m : nat) (s : state) :
  run hw (n + m) s = run hw m (run hw n s).
Proof.
  revert s. induction n as [|n IH]; intros s; [reflexivity|].
  simpl. apply IH.
Qed.

Lemma run_Done hw (n : nat) (s : state) (o : outcome) :
  pc s = Done o -> run hw n s = s.
Proof.
  intros H. induction n as [|n IH]; [reflexivity|].
  simpl. unfold main_step at 1. rewrite H. exact IH.
Qed.

(** A statement adds at most one event at the end of the trace. *)
Lemma main_step_trace hw (s : state) :
  exists evs, trace (main_step hw s) = trace s ++ evs.
Proof.
  destruct s as [p c st j t buf tr].
  destruct p; exec;
    try (match goal with
         | |- context [if ?a =? ?b then _ else _] => destruct (a =? b)
         | |- context [if ?a <? ?b then _ else _] => destruct (a <? b)
         | |- context [match ?l !! ?k with _ => _ end] => destruct (l !! k)
         end; exec);
    first [ eexists; reflexivity
          | exists []; rewrite app_nil_r; reflexivity ].
Qed.

(** Traces only grow. *)
Lemma trace_grows hw (n : nat) :
  forall s, exists evs, trace (run hw n s) = trace s ++ evs.
Proof.
  induction n as [|n IH]; intros s.
  - exists []. rewrite app_nil_r. reflexivity.
  - rewrite run_S. destruct (IH (main_step hw s)) as [evs2 H2].
    destruct (main_step_trace hw s) as [evs1 H1].
    exists (evs1 ++ evs2). rewrite H2, H1, app_assoc. reflexivity.
Qed.

(** The trace at any moment is an initial segment of the trace at any
    later moment. *)
Lemma trace_prefix hw (n m : nat) (s : state) :
  (n <= m)%nat ->
  exists evs, trace (run hw m s) = trace (run hw n s) ++ evs.
Proof.
  intros Hnm. replace m with (n + (m - n))%nat by lia.
  rewrite run_add. apply trace_grows.
Qed.

(** Once a run has reached a [Done] control point it stays there. *)
Lemma run_settles hw (N : nat) (s s' : state) (o : outcome) :
  run hw N s = s' -> pc s' = Done o ->
  forall n, (N <= n)%nat -> run hw n s = s'.
Proof.
  intros Hrun Hpc n Hn.
  replace n with (N + (n - N))%nat by lia.
  rewrite run_add, Hrun. eapply run_Done; eassumption.
Qed.

Lemma Zeqb_false (a b : Z) : a <> b -> (a =? b) = false.
Proof. intros H. apply Z.eqb_neq. exact H. Qed.

Lemma Zltb_true (a b : Z) : a < b -> (a <? b) = true.
Proof. intros H. apply Z.ltb_lt. exact H. Qed.

Lemma Zltb_false (a b : Z) : b <= a -> (a <? b) = false.
Proof. intros H. apply Z.ltb_ge. exact H. Qed.

(** * One transfer attempt (lines 57 to 80) *)

Lemma polls_cons (r : Z) (rs : list Z) :
  polls (r :: rs) = [Busy XAXIDMA_DMA_TO_DEVICE r; usleep 1] ++ polls rs.
Proof. reflexivity. Qed.

(** [k] rounds of the polling loop of lines 66 to 73 against an engine
    that keeps answering busy. *)
Lemma poll_busy_rounds hw (k : nat) :
  forall s,
    pc s = L66 ->
    Z.of_nat k <= TimeOut s ->
    (forall n, pc (run hw n s) = L67 ->
       XAxiDma_Busy hw (trace (run hw n s)) XAXIDMA_DMA_TO_DEVICE <> 0) ->
    exists rs,
      length rs = k /\ Forall (fun r => r <> 0) rs /\
      run hw (4 * k) s =
        {| pc := L66; DMA_Cfg := DMA_Cfg s; status := status s; i := i s;
           TimeOut := TimeOut s - Z.of_nat k; TxBuffer := TxBuffer s;
           trace := trace s ++ polls rs |}.
Proof.
  induction k as [|k IH]; intros s Hpc Hk Hbusy.
  - exists []. split; [reflexivity|]. split; [constructor|].
    destruct s as [p c st j t buf tr]. cbn in Hpc. subst p.
    change (4 * 0)%nat with 0%nat. exec.
    cbn [polls flat_map Z.of_nat]. rewrite app_nil_r. f_equal. lia.
  - destruct s as [p c st j t buf tr]. cbn in Hpc, Hk. subst p.
    pose proof (Hbusy 1%nat) as H1. exec_in H1.
    rewrite Zeqb_false in H1 by lia. exec_in H1.
    specialize (H1 eq_refl).
    set (r := XAxiDma_Busy hw tr XAXIDMA_DMA_TO_DEVICE) in *.
    set (s1 := {| pc := L66; DMA_Cfg := c; status := st; i := j;
                  TimeOut := t - 1; TxBuffer := buf;
                  trace :=
                    tr ++ [Busy XAXIDMA_DMA_TO_DEVICE r] ++ [usleep 1] |}).
    assert (Hfour : run hw 4 {| pc := L66; DMA_Cfg := c; status := st; i := j;
                              TimeOut := t; TxBuffer := buf;
                              trace := tr |} = s1).
    { exec. rewrite Zeqb_false by lia. exec. fold r.
      rewrite (Zeqb_false r 0) by exact H1. exec.
      unfold s1. f_equal. rewrite <- app_assoc. reflexivity. }
    destruct (IH s1) as (rs & Hlen & Hall & Hrun).
    + reflexivity.
    + unfold s1. cbn. lia.
    + intros n Hn. rewrite <- Hfour, <- run_add in Hn |- *.
      apply Hbusy. exact Hn.
    + exists (r :: rs). split; [cbn; lia|]. split; [constructor; assumption|].
      replace (4 * S k)%nat with (4 + 4 * k)%nat by lia.
      rewrite run_add, Hfour, Hrun. unfold s1. cbn [DMA_Cfg status i TimeOut
        TxBuffer trace]. f_equal; [lia|].
      rewrite polls_cons, <- !app_assoc. reflexivity.
Qed.

(** Lines 57 to 66 when the request is accepted. *)
Lemma attempt_enters_poll_loop hw (s : state) :
  pc s = L57 ->
  start_answer hw s = XST_SUCCESS ->
  run hw 3 s =
    {| pc := L66; DMA_Cfg := DMA_Cfg s; status := XST_SUCCESS; i := i s;
       TimeOut := POLL_TIMEOUT_COUNTER; TxBuffer := TxBuffer s;
       trace := trace s ++ [start_event hw XST_SUCCESS] |}.
Proof.
  intros Hpc Hst. destruct s as [p c st j t buf tr]. cbn in Hpc. subst p.
  unfold start_answer in Hst. cbn [trace] in Hst.
  exec. rewrite Hst. exec. reflexivity.
Qed.

(** Lines 66 and 75 to 77 once the budget is used up. *)
Lemma exhausted_budget_returns hw (s : state) :
  pc s = L66 ->
  TimeOut s = 0 ->
  run hw 4 s =
    {| pc := Done (Returned XST_FAILURE); DMA_Cfg := DMA_Cfg s;
       status := status s; i := i s; TimeOut := 0; TxBuffer := TxBuffer s;
       trace := trace s ++ [xil_printf "DMA transfer timed out\n" []] |}.
Proof.
  intros Hpc Ht. destruct s as [p c st j t buf tr]. cbn in Hpc, Ht. subst p t.
  exec. reflexivity.
Qed.

(** Lines 66 to 80 when the engine answers that it is idle. *)
Lemma idle_answer_leaves_loop hw (s : state) :
  pc s = L66 ->
  TimeOut s <> 0 ->
  busy_answer hw s = 0 ->
  run hw 6 s =
    {| pc := L55; DMA_Cfg := DMA_Cfg s; status := status s; i := i s;
       TimeOut := TimeOut s; TxBuffer := TxBuffer s;
       trace := trace s ++
         [Busy XAXIDMA_DMA_TO_DEVICE 0;
          xil_printf "DMA transfer completed successfully\n" [];
          xil_printf "Image sent via DMA successfully\n" []] |}.
Proof.
  intros Hpc Ht Hb. destruct s as [p c st j t buf tr]. cbn in Hpc, Ht. subst p.
  unfold busy_answer in Hb. cbn [trace] in Hb.
  exec. rewrite (Zeqb_false t 0) by exact Ht. exec. rewrite Hb. exec.
  rewrite (Zeqb_false t 0) by exact Ht. exec.
  rewrite <- !app_assoc. reflexivity.
Qed.

(** C1. A transfer attempt (line 57 on) whose request is accepted and
    whose every busy query is answered busy makes exactly
    [POLL_TIMEOUT_COUNTER] = 1,000,000 queries, each followed by
    [usleep(1)], then reports the timeout and returns [XST_FAILURE].  The
    trace at every moment of the attempt is an initial segment of that
    final trace: the report comes after the 1,000,000th wait, not
    earlier, and nothing follows it. *)
Theorem timeout_after_exact_poll_budget hw (s : state) :
  pc s = L57 ->
  start_answer hw s = XST_SUCCESS ->
  (forall n, pc (run hw n s) = L67 -> busy_answer hw (run hw n s) <> 0) ->
  exists (rs : list Z) (N : nat),
    Z.of_nat (length rs) = 1000000 /\
    Z.of_nat (length rs) = POLL_TIMEOUT_COUNTER /\
    Forall (fun r => r <> 0) rs /\
    (forall n, (N <= n)%nat ->
       run hw n s =
         {| pc := Done (Returned XST_FAILURE); DMA_Cfg := DMA_Cfg s;
            status := XST_SUCCESS; i := i s; TimeOut := 0;
            TxBuffer := TxBuffer s;
            trace := trace s ++ [start_event hw XST_SUCCESS] ++ polls rs ++
                     [xil_printf "DMA transfer timed out\n" []] |}) /\
    (forall n, exists evs,
       trace s ++ [start_event hw XST_SUCCESS] ++ polls rs ++
       [xil_printf "DMA transfer timed out\n" []] =
       trace (run hw n s) ++ evs).
Proof.
  intros Hpc Hst Hbusy.
  pose proof (attempt_enters_poll_loop hw s Hpc Hst) as H3.
  assert (Hk : exists k : nat, Z.of_nat k = POLL_TIMEOUT_COUNTER).
  { exists (Z.to_nat POLL_TIMEOUT_COUNTER). unfold POLL_TIMEOUT_COUNTER. lia. }
  destruct Hk as [k Hk].
  destruct (poll_busy_rounds hw k (run hw 3 s)) as (rs & Hlen & Hall & Hrun).
  - rewrite H3. reflexivity.
  - rewrite H3. cbn [TimeOut]. lia.
  - intros n Hn. rewrite <- run_add in Hn |- *. apply Hbusy. exact Hn.
  - assert (Hfinal :
      run hw (3 + (4 * k + 4)) s =
        {| pc := Done (Returned XST_FAILURE); DMA_Cfg := DMA_Cfg s;
           status := XST_SUCCESS; i := i s; TimeOut := 0;
           TxBuffer := TxBuffer s;
           trace := trace s ++ [start_event hw XST_SUCCESS] ++ polls rs ++
                    [xil_printf "DMA transfer timed out\n" []] |}).
    { rewrite run_add, run_add, Hrun, exhausted_budget_returns.
      - rewrite H3. cbn [DMA_Cfg status i TimeOut TxBuffer trace].
        rewrite <- !app_assoc. reflexivity.
      - reflexivity.
      - rewrite H3. cbn [TimeOut]. lia. }
    assert (Hlate : forall n, (3 + (4 * k + 4) <= n)%nat ->
              run hw n s = run hw (3 + (4 * k + 4)) s).
    { intros n Hn. rewrite Hfinal.
      eapply run_settles; [exact Hfinal|reflexivity|exact Hn]. }
    exists rs, (3 + (4 * k + 4))%nat.
    split; [rewrite Hlen, Hk; reflexivity|].
    split; [rewrite Hlen; exact Hk|]. split; [exact Hall|]. split.
    + intros n Hn. rewrite (Hlate n Hn). exact Hfinal.
    + intros n. destruct (Nat.le_ge_cases n (3 + (4 * k + 4))) as [Hn|Hn].
      * destruct (trace_prefix hw n _ s Hn) as [evs Hevs].
        exists evs. rewrite <- Hevs, Hfinal. reflexivity.
      * exists []. rewrite (Hlate n Hn), Hfinal, app_nil_r. reflexivity.
Qed.

Lemma timeout_after_exact_poll_budget_witness :
  pc (at_label L57 0) = L57 /\
  start_answer busy_engine (at_label L57 0) = XST_SUCCESS /\
  (forall n, pc (run busy_engine n (at_label L57 0)) = L67 ->
     busy_answer busy_engine (run busy_engine n (at_label L57 0)) <> 0) /\
  exists (rs : list Z) (N : nat),
    Z.of_nat (length rs) = 1000000 /\
    Z.of_nat (length rs) = POLL_TIMEOUT_COUNTER /\
    Forall (fun r => r <> 0) rs /\
    (forall n, (N <= n)%nat ->
       run busy_engine n (at_label L57 0) =
         {| pc := Done (Returned XST_FAILURE); DMA_Cfg := 64;
            status := XST_SUCCESS; i := 0; TimeOut := 0;
            TxBuffer := [17; 34; 51; 68];
            trace := [] ++ [start_event busy_engine XST_SUCCESS] ++
                     polls rs ++
                     [xil_printf "DMA transfer timed out\n" []] |}) /\
    (forall n, exists evs,
       [] ++ [start_event busy_engine XST_SUCCESS] ++ polls rs ++
       [xil_printf "DMA transfer timed out\n" []] =
       trace (run busy_engine n (at_label L57 0)) ++ evs).
Proof.
  assert (H1 : pc (at_label L57 0) = L57) by reflexivity.
  assert (H2 : start_answer busy_engine (at_label L57 0) = XST_SUCCESS)
    by reflexivity.
  assert (H3 : forall n, pc (run busy_engine n (at_label L57 0)) = L67 ->
     busy_answer busy_engine (run busy_engine n (at_label L57 0)) <> 0)
    by (intros n _; discriminate).
  split; [exact H1|]. split; [exact H2|]. split; [exact H3|].
  exact (timeout_after_exact_poll_budget busy_engine (at_label L57 0) H1 H2 H3).
Defined.

(** The polling loop entered with three units left, against the busy
    engine: three queries, three waits, then the timeout report. *)
Example poll_three_rounds :
  run busy_engine 16 (at_label L66 3) =
    {| pc := Done (Returned XST_FAILURE); DMA_Cfg := 64; status := 0; i := 0;
       TimeOut := 0; TxBuffer := [17; 34; 51; 68];
       trace := polls [1; 1; 1] ++
                [xil_printf "DMA transfer timed out\n" []] |}.
Proof. vm_compute. reflexivity. Qed.

(** C2. (a) A transfer attempt whose request is accepted and whose first
    busy query is answered idle makes that single query, no wait, reports
    completion and is back at line 57 for the next attempt with [TimeOut]
    still at [POLL_TIMEOUT_COUNTER].  (b) At any round of the polling loop
    (line 66 with budget left), an idle answer leaves the loop at once: no
    further query, no wait, [TimeOut] as it was. *)
Theorem idle_answer_completes_at_once hw :
  (forall s,
     pc s = L57 ->
     start_answer hw s = XST_SUCCESS ->
     XAxiDma_Busy hw (trace s ++ [start_event hw XST_SUCCESS])
       XAXIDMA_DMA_TO_DEVICE = 0 ->
     run hw 10 s =
       {| pc := L57; DMA_Cfg := DMA_Cfg s; status := XST_SUCCESS; i := i s;
          TimeOut := POLL_TIMEOUT_COUNTER; TxBuffer := TxBuffer s;
          trace := trace s ++
            [start_event hw XST_SUCCESS;
             Busy XAXIDMA_DMA_TO_DEVICE 0;
             xil_printf "DMA transfer completed successfully\n" [];
             xil_printf "Image sent via DMA successfully\n" []] |}) /\
  (forall s,
     pc s = L66 ->
     TimeOut s <> 0 ->
     busy_answer hw s = 0 ->
     run hw 6 s =
       {| pc := L55; DMA_Cfg := DMA_Cfg s; status := status s; i := i s;
          TimeOut := TimeOut s; TxBuffer := TxBuffer s;
          trace := trace s ++
            [Busy XAXIDMA_DMA_TO_DEVICE 0;
             xil_printf "DMA transfer completed successfully\n" [];
             xil_printf "Image sent via DMA successfully\n" []] |}).
Proof.
  split.
  - intros s Hpc Hst Hb.
    change 10%nat with (3 + (6 + 1))%nat.
    rewrite run_add, (attempt_enters_poll_loop hw s Hpc Hst).
    rewrite run_add, idle_answer_leaves_loop.
    + exec. rewrite <- !app_assoc. reflexivity.
    + reflexivity.
    + cbn [TimeOut]. discriminate.
    + exact Hb.
  - apply idle_answer_leaves_loop.
Qed.

Lemma idle_answer_completes_at_once_witness :
  (pc (at_label L57 0) = L57 /\
   start_answer idle_engine (at_label L57 0) = XST_SUCCESS /\
   XAxiDma_Busy idle_engine
     (trace (at_label L57 0) ++ [start_event idle_engine XST_SUCCESS])
     XAXIDMA_DMA_TO_DEVICE = 0 /\
   trace (run idle_engine 10 (at_label L57 0)) =
     [start_event idle_engine XST_SUCCESS;
      Busy XAXIDMA_DMA_TO_DEVICE 0;
      xil_printf "DMA transfer completed successfully\n" [];
      xil_printf "Image sent via DMA successfully\n" []]) /\
  (pc (at_label L66 5) = L66 /\
   TimeOut (at_label L66 5) <> 0 /\
   busy_answer idle_engine (at_label L66 5) = 0 /\
   TimeOut (run idle_engine 6 (at_label L66 5)) = 5).
Proof.
  destruct (idle_answer_completes_at_once idle_engine) as [Ha Hb].
  split.
  - split; [reflexivity|]. split; [reflexivity|]. split; [reflexivity|].
    rewrite (Ha (at_label L57 0)); reflexivity.
  - split; [reflexivity|]. split; [discriminate|]. split; [reflexivity|].
    rewrite (Hb (at_label L66 5));
      [reflexivity|reflexivity|discriminate|reflexivity].
Defined.

(** * Failure paths *)

Lemma failure_run hw (s : state) (f : failure) :
  failure_at hw s = Some f ->
  exists (c st : Z),
    run hw 4 s =
      {| pc := Done (Returned XST_FAILURE); DMA_Cfg := c; status := st;
         i := i s; TimeOut := TimeOut s; TxBuffer := TxBuffer s;
         trace := trace s ++ failure_events hw s f |} /\
    forall n, (n < 4)%nat ->
      exists k, trace (run hw n s) = trace s ++ take k (failure_events hw s f).
Proof.
  intros Hf. destruct s as [p c st j t buf tr]. unfold failure_at in Hf.
  cbn [pc DMA_Cfg TimeOut] in Hf.
  destruct p; try discriminate Hf.
  - (* line 34 *)
    destruct (Z.eqb_spec (XAxiDma_LookupConfig hw (DMA_DEV_ID hw)) 0) as [E|E];
      [|discriminate Hf].
    injection Hf as <-. eexists _, _. split.
    + exec. rewrite E. exec. rewrite <- app_assoc. reflexivity.
    + intros n Hn.
      destruct n as [|[|[|[|n]]]];
        [exists 0%nat|exists 1%nat|exists 1%nat|exists 2%nat|lia];
        exec; rewrite ?E; exec;
        cbn [failure_events failure_call failure_report app take];
        rewrite <- ?app_assoc, ?app_nil_r; reflexivity.
  - (* line 40 *)
    destruct (Z.eqb_spec (XAxiDma_CfgInitialize hw c) XST_SUCCESS) as [E|E];
      [discriminate Hf|].
    injection Hf as <-. eexists _, _. split.
    + exec. rewrite (Zeqb_false _ _ E). exec.
      rewrite <- app_assoc. reflexivity.
    + intros n Hn.
      destruct n as [|[|[|[|n]]]];
        [exists 0%nat|exists 1%nat|exists 1%nat|exists 2%nat|lia];
        exec; rewrite ?(Zeqb_false _ _ E); exec;
        cbn [failure_events failure_call failure_report app take];
        rewrite <- ?app_assoc, ?app_nil_r; reflexivity.
  - (* line 57 *)
    unfold start_answer in *. cbn [trace] in *.
    destruct (Z.eqb_spec (XAxiDma_SimpleTransfer hw tr (TxBuffer_addr hw)
                (IMG_LENGTH * sizeof_uint32_t) XAXIDMA_DMA_TO_DEVICE)
                XST_SUCCESS) as [E|E]; [discriminate Hf|].
    injection Hf as <-. eexists _, _. split.
    + exec. rewrite (Zeqb_false _ _ E). exec.
      rewrite <- app_assoc. reflexivity.
    + intros n Hn.
      destruct n as [|[|[|[|n]]]];
        [exists 0%nat|exists 1%nat|exists 1%nat|exists 2%nat|lia];
        exec; rewrite ?(Zeqb_false _ _ E); exec;
        cbn [failure_events failure_call failure_report app take start_answer
             trace];
        rewrite <- ?app_assoc, ?app_nil_r; reflexivity.
  - (* line 75 *)
    destruct (Z.eqb_spec t 0) as [E|E]; [|discriminate Hf].
    injection Hf as <-. subst t. eexists _, _. split.
    + exec. reflexivity.
    + intros n Hn.
      destruct n as [|[|[|[|n]]]];
        [exists 0%nat|exists 0%nat|exists 1%nat|exists 1%nat|lia];
        exec; cbn [failure_events failure_call failure_report app take];
        rewrite ?app_nil_r; reflexivity.
Qed.

Lemma failure_events_not_started hw (s : state) (f : failure) :
  failure_at hw s = Some f ->
  Forall (fun e => transfer_started e = false) (failure_events hw s f).
Proof.
  intros Hf. unfold failure_at in Hf.
  destruct f; unfold failure_events; cbn [failure_call failure_report app];
    repeat constructor.
  cbn [start_event transfer_started].
  destruct (pc s); try discriminate Hf.
  - destruct (_ =? 0); discriminate Hf.
  - destruct (_ =? XST_SUCCESS); discriminate Hf.
  - destruct (start_answer hw s =? XST_SUCCESS); [discriminate Hf|reflexivity].
  - destruct (_ =? 0); discriminate Hf.
Qed.

(** C3. Each of the four failure conditions (configuration lookup
    returning [NULL] at line 34, initialization failing at line 40, the
    transfer request rejected at line 57, the poll budget found exhausted
    at line 75) ends the program: the event of the failing call is
    followed by the message of that failure and by the return of
    [XST_FAILURE]; the trace never grows again, and at no time after the
    failure point does the trace contain an accepted transfer request. *)
Theorem failure_halts_service_loop hw (s : state) (f : failure) :
  failure_at hw s = Some f ->
  (forall n, (4 <= n)%nat ->
     pc (run hw n s) = Done (Returned XST_FAILURE) /\
     trace (run hw n s) =
       trace s ++ failure_call hw s f ++ [failure_report hw s f]) /\
  (forall n, exists evs,
     trace (run hw n s) = trace s ++ evs /\
     Forall (fun e => transfer_started e = false) evs).
Proof.
  intros Hf.
  destruct (failure_run hw s f Hf) as (c & st & H4 & Hlt).
  pose proof (failure_events_not_started hw s f Hf) as Hns.
  split.
  - intros n Hn. rewrite (run_settles hw 4 s _ _ H4 eq_refl n Hn).
    split; reflexivity.
  - intros n. destruct (Nat.lt_ge_cases n 4) as [Hn|Hn].
    + destruct (Hlt n Hn) as [k Hk]. exists (take k (failure_events hw s f)).
      split; [exact Hk|]. apply Forall_take. exact Hns.
    + exists (failure_events hw s f).
      rewrite (run_settles hw 4 s _ _ H4 eq_refl n Hn). split; [reflexivity|].
      exact Hns.
Qed.

Lemma failure_halts_service_loop_witness :
  (failure_at no_device (at_label L34 0) = Some ConfigMissing /\
   forall n, (4 <= n)%nat ->
     pc (run no_device n (at_label L34 0)) = Done (Returned XST_FAILURE) /\
     trace (run no_device n (at_label L34 0)) =
       [LookupConfig 0 0; xil_printf "DMA config lookup failed\n" []]) /\
  (failure_at rejecting_engine (at_label L40 0) = Some InitFailed /\
   forall n, (4 <= n)%nat ->
     pc (run rejecting_engine n (at_label L40 0)) =
       Done (Returned XST_FAILURE) /\
     trace (run rejecting_engine n (at_label L40 0)) =
       [CfgInitialize 64 5; xil_printf "DMA init failed - %x\n" [5]]) /\
  (failure_at rejecting_engine (at_label L57 0) = Some StartRejected /\
   forall n, (4 <= n)%nat ->
     pc (run rejecting_engine n (at_label L57 0)) =
       Done (Returned XST_FAILURE) /\
     trace (run rejecting_engine n (at_label L57 0)) =
       [start_event rejecting_engine 15;
        xil_printf "DMA transfer failed - %x\n" [15]]) /\
  (failure_at busy_engine (at_label L75 0) = Some PollTimeout /\
   forall n, (4 <= n)%nat ->
     pc (run busy_engine n (at_label L75 0)) = Done (Returned XST_FAILURE) /\
     trace (run busy_engine n (at_label L75 0)) =
       [xil_printf "DMA transfer timed out\n" []]).
Proof.
  split; [|split; [|split]]; (split; [reflexivity|]).
  - exact (proj1 (failure_halts_service_loop no_device (at_label L34 0)
                    ConfigMissing eq_refl)).
  - exact (proj1 (failure_halts_service_loop rejecting_engine (at_label L40 0)
                    InitFailed eq_refl)).
  - exact (proj1 (failure_halts_service_loop rejecting_engine (at_label L57 0)
                    StartRejected eq_refl)).
  - exact (proj1 (failure_halts_service_loop busy_engine (at_label L75 0)
                    PollTimeout eq_refl)).
Defined.

(** * Populating the buffer (lines 49 to 51) *)

Lemma uint32_word (v : Z) : 0 <= v < 2 ^ 32 -> uint32 v = v.
Proof. intros H. unfold uint32. apply Z.mod_small. exact H. Qed.

(** The last [k] rounds of the copy loop. *)
Lemma copy_rounds hw (k : nat) :
  forall s,
    pc s = L49_test ->
    i s = IMG_LENGTH - Z.of_nat k ->
    0 <= i s ->
    length (TxBuffer s) = Z.to_nat IMG_LENGTH ->
    payload_present hw ->
    exists buf,
      run hw (3 * k + 1) s =
        {| pc := L54; DMA_Cfg := DMA_Cfg s; status := status s;
           i := IMG_LENGTH; TimeOut := TimeOut s; TxBuffer := buf;
           trace := trace s |} /\
      length buf = Z.to_nat IMG_LENGTH /\
      forall j : nat,
        (Z.of_nat j < i s -> buf !! j = TxBuffer s !! j) /\
        (i s <= Z.of_nat j < IMG_LENGTH ->
           exists v, hex_values hw !! j = Some v /\ buf !! j = Some (uint32 v)).
Proof.
  induction k as [|k IH]; intros s Hpc Hi Hi0 Hlen Hpay;
    destruct s as [p c st j t buf tr]; cbn in Hpc, Hi, Hi0, Hlen; subst p.
  - exists buf. change (3 * 0 + 1)%nat with 1%nat. exec.
    rewrite Zltb_false by lia. split; [f_equal; lia|]. split; [exact Hlen|].
    cbn [i TxBuffer]. intros n. split; [reflexivity|lia].
  - assert (Hj : (Z.to_nat j < length (hex_values hw))%nat)
      by (unfold payload_present in Hpay; lia).
    destruct (lookup_lt_is_Some_2 _ _ Hj) as [v Hv].
    set (s1 := {| pc := L49_test; DMA_Cfg := c; status := st; i := j + 1;
                  TimeOut := t;
                  TxBuffer := <[Z.to_nat j := uint32 v]> buf; trace := tr |}).
    assert (Hthree :
      run hw 3 {| pc := L49_test; DMA_Cfg := c; status := st; i := j;
                  TimeOut := t; TxBuffer := buf; trace := tr |} = s1).
    { exec. rewrite Zltb_true by lia. exec. rewrite Hv. exec. reflexivity. }
    destruct (IH s1) as (buf' & Hrun & Hlen' & Hbuf).
    + reflexivity.
    + unfold s1. cbn [i]. lia.
    + unfold s1. cbn [i]. lia.
    + unfold s1. cbn [TxBuffer]. rewrite length_insert. exact Hlen.
    + exact Hpay.
    + exists buf'. replace (3 * S k + 1)%nat with (3 + (3 * k + 1))%nat by lia.
      rewrite run_add, Hthree, Hrun. split; [reflexivity|].
      split; [exact Hlen'|]. cbn [i TxBuffer]. intros n.
      destruct (Hbuf n) as [Hlow Hhigh]. unfold s1 in Hlow, Hhigh.
      cbn [i TxBuffer] in Hlow, Hhigh. split.
      * intros Hn. rewrite Hlow by lia.
        apply list_lookup_insert_ne. lia.
      * intros Hn. destruct (Z.eq_dec (Z.of_nat n) j) as [E|E].
        -- assert (En : n = Z.to_nat j) by lia. subst n.
           exists v. split; [exact Hv|]. rewrite Hlow by lia.
           apply list_lookup_insert_eq. lia.
        -- apply Hhigh. lia.
Qed.

(** C4. The population step (lines 49 to 51), run on the
    [IMG_LENGTH]-word buffer with a table of at least [IMG_LENGTH] 32-bit
    words, reaches line 54 with [TxBuffer[j] = hex_values[j]] for every
    index [j] in [0, IMG_LENGTH), having made no call. *)
Theorem population_copies_payload hw (s : state) :
  pc s = L49_init ->
  length (TxBuffer s) = Z.to_nat IMG_LENGTH ->
  payload_present hw ->
  payload_words hw ->
  exists (n : nat) (buf : list Z),
    run hw n s =
      {| pc := L54; DMA_Cfg := DMA_Cfg s; status := status s;
         i := IMG_LENGTH; TimeOut := TimeOut s; TxBuffer := buf;
         trace := trace s |} /\
    forall j : nat, 0 <= Z.of_nat j < IMG_LENGTH ->
      is_Some (buf !! j) /\ buf !! j = hex_values hw !! j.
Proof.
  intros Hpc Hlen Hpay Hwords.
  destruct s as [p c st j t buf tr]. cbn in Hpc, Hlen. subst p.
  destruct (copy_rounds hw (Z.to_nat IMG_LENGTH)
              {| pc := L49_test; DMA_Cfg := c; status := st; i := 0;
                 TimeOut := t; TxBuffer := buf; trace := tr |})
    as (buf' & Hrun & _ & Hbuf).
  - reflexivity.
  - cbn [i]. unfold IMG_LENGTH. lia.
  - cbn [i]. lia.
  - exact Hlen.
  - exact Hpay.
  - exists (S (3 * Z.to_nat IMG_LENGTH + 1)), buf'. split.
    + rewrite run_S. exec. exact Hrun.
    + intros n Hn. destruct (Hbuf n) as [_ Hhigh]. cbn [i] in Hhigh.
      destruct (Hhigh Hn) as (v & Hv & Hb). rewrite Hb, Hv.
      split; [eexists; reflexivity|]. f_equal. apply uint32_word.
      unfold payload_words in Hwords. rewrite Forall_forall in Hwords.
      apply Hwords. eapply list_elem_of_lookup_2. exact Hv.
Qed.

Lemma image_board_payload_present : payload_present image_board.
Proof.
  unfold payload_present, image_board. cbn [hex_values].
  rewrite length_replicate. unfold IMG_LENGTH. lia.
Qed.

Lemma population_copies_payload_witness :
  pc before_population = L49_init /\
  length (TxBuffer before_population) = Z.to_nat IMG_LENGTH /\
  payload_present image_board /\
  payload_words image_board /\
  exists (n : nat) (buf : list Z),
    run image_board n before_population =
      {| pc := L54; DMA_Cfg := 64; status := 0; i := IMG_LENGTH;
         TimeOut := 0; TxBuffer := buf; trace := [] |} /\
    forall j : nat, 0 <= Z.of_nat j < IMG_LENGTH ->
      is_Some (buf !! j) /\ buf !! j = hex_values image_board !! j.
Proof.
  assert (H1 : pc before_population = L49_init) by reflexivity.
  assert (H2 : length (TxBuffer before_population) = Z.to_nat IMG_LENGTH)
    by exact TxBuffer_init_length.
  assert (H3 : payload_present image_board)
    by exact image_board_payload_present.
  assert (H4 : payload_words image_board)
    by (apply Forall_replicate; lia).
  split; [exact H1|]. split; [exact H2|]. split; [exact H3|].
  split; [exact H4|].
  exact (population_copies_payload image_board before_population H1 H2 H3 H4).
Defined.

(** * The assertions hold in every run *)

Section Assertions.

Variable hw : platform.

Lemma unflushed_snoc (tr : list event) (e : event) :
  unflushed tr -> is_flush e = false -> is_start e = false ->
  unflushed (tr ++ [e]).
Proof.
  intros Htr Hf Hs. apply Forall_app. split; [exact Htr|].
  constructor; [split; assumption|constructor].
Qed.

Lemma flushed_once_first (tr : list event) :
  unflushed tr ->
  flushed_once hw
    (tr ++ [DCacheFlushRange (TxBuffer_addr hw)
              (IMG_LENGTH * sizeof_uint32_t)]).
Proof.
  intros Htr. exists tr, []. split; [reflexivity|].
  split; [exact Htr|constructor].
Qed.

Lemma flushed_once_snoc (tr : list event) (e : event) :
  flushed_once hw tr -> is_flush e = false -> flushed_once hw (tr ++ [e]).
Proof.
  intros (pre & post & -> & Hpre & Hpost) He.
  exists pre, (post ++ [e]). split; [|split; [exact Hpre|]].
  - rewrite <- app_assoc. reflexivity.
  - apply Forall_app. split; [exact Hpost|].
    constructor; [exact He|constructor].
Qed.

Lemma start_args_snoc (tr : list event) (e : event) :
  Forall (start_args_ok hw) tr -> start_args_ok hw e ->
  Forall (start_args_ok hw) (tr ++ [e]).
Proof.
  intros Htr He. apply Forall_app. split; [exact Htr|].
  constructor; [exact He|constructor].
Qed.

Lemma copied_insert (buf : list Z) (j v : Z) :
  length buf = Z.to_nat IMG_LENGTH ->
  0 <= j < IMG_LENGTH ->
  copied hw buf j ->
  hex_values hw !! Z.to_nat j = Some v ->
  copied hw (<[Z.to_nat j := uint32 v]> buf) (j + 1).
Proof.
  intros Hlen Hj Hc Hv n Hn.
  destruct (Z.eq_dec (Z.of_nat n) j) as [E|E].
  - assert (En : n = Z.to_nat j) by lia. subst n. exists v.
    split; [exact Hv|]. apply list_lookup_insert_eq. lia.
  - destruct (Hc n) as (w & Hw & Hb); [lia|]. exists w. split; [exact Hw|].
    rewrite list_lookup_insert_ne by lia. exact Hb.
Qed.

Lemma copied_nothing (buf : list Z) : copied hw buf 0.
Proof. intros n Hn. lia. Qed.

Lemma assertion_init : assertion hw init.
Proof.
  unfold assertion, init. cbn [pc TxBuffer trace].
  split; [exact TxBuffer_init_length|]. split; [constructor|].
  split; [constructor|reflexivity].
Qed.

Ltac snoc_facts :=
  first
    [ assumption
    | apply unflushed_snoc; [assumption|reflexivity|reflexivity]
    | apply flushed_once_snoc; [assumption|reflexivity]
    | apply flushed_once_first; assumption
    | apply start_args_snoc; [assumption|exact I]
    | apply start_args_snoc;
        [assumption|split; [reflexivity|split; reflexivity]]
    | apply copied_nothing
    | lia ].

Lemma assertion_step (s : state) :
  assertion hw s -> assertion hw (main_step hw s).
Proof.
  destruct s as [p c st j t buf tr]. unfold assertion.
  cbn [pc TxBuffer trace i TimeOut].
  intros (Hlen & Hargs & H).
  destruct p; exec;
    try (destruct H as (H1 & H2 & H3));
    try (destruct H as (H1 & H2));
    try contradiction.
  all: try (match goal with
            | |- context [if ?a =? ?b then _ else _] =>
                destruct (Z.eqb_spec a b)
            | |- context [if ?a <? ?b then _ else _] =>
                destruct (Z.ltb_spec a b)
            | |- context [match ?l !! ?k with _ => _ end] =>
                destruct (l !! k) eqn:Hlook
            end; exec).
  all: try (unfold POLL_TIMEOUT_COUNTER in *;
            repeat (split; try snoc_facts); fail).
  - (* line 37 *) repeat (split; try snoc_facts). left. assumption.
  - (* line 43 *) repeat (split; try snoc_facts). left. assumption.
  - (* line 49, initialization of the index *)
    repeat (split; try snoc_facts). unfold IMG_LENGTH. lia.
  - (* line 49, last test: the index has reached IMG_LENGTH *)
    repeat (split; try snoc_facts).
    replace IMG_LENGTH with j by lia. assumption.
  - (* line 50 *)
    repeat (split; try snoc_facts).
    + rewrite length_insert. exact Hlen.
    + apply copied_insert; assumption.
  - (* line 60 *) repeat (split; try snoc_facts). right. split; assumption.
  - (* line 77 *) repeat (split; try snoc_facts). right. split; assumption.
Qed.

Lemma assertion_run (n : nat) :
  forall s, assertion hw s -> assertion hw (run hw n s).
Proof.
  induction n as [|n IH]; intros s Hs; [exact Hs|].
  rewrite run_S. apply IH, assertion_step, Hs.
Qed.

Lemma assertion_main (n : nat) : assertion hw (main hw n).
Proof. apply assertion_run, assertion_init. Qed.

End Assertions.

(** The two decrements and increments of [int] variables operate on
    values between 0 and the loop bounds. *)
Lemma int_arithmetic_in_range hw (n : nat) :
  (pc (main hw n) = L49_incr -> 0 <= i (main hw n) < IMG_LENGTH) /\
  (pc (main hw n) = L71 ->
     0 < TimeOut (main hw n) <= POLL_TIMEOUT_COUNTER).
Proof.
  destruct (assertion_main hw n) as (_ & _ & H). split; intros Hpc;
    rewrite Hpc in H.
  - exact (proj1 (proj2 H)).
  - exact (proj2 (proj2 H)).
Qed.

(** * From power-up to the service loop *)

Lemma main_boots hw :
  XAxiDma_LookupConfig hw (DMA_DEV_ID hw) <> 0 ->
  XAxiDma_CfgInitialize hw (XAxiDma_LookupConfig hw (DMA_DEV_ID hw))
    = XST_SUCCESS ->
  main hw 7 =
    {| pc := L49_test; DMA_Cfg := XAxiDma_LookupConfig hw (DMA_DEV_ID hw);
       status := XST_SUCCESS; i := 0; TimeOut := 0;
       TxBuffer := TxBuffer_init; trace := boot_trace hw |}.
Proof.
  intros Hcfg Hinit. rewrite main_eq. unfold init. exec.
  rewrite (Zeqb_false _ _ Hcfg). exec. rewrite Hinit. exec. reflexivity.
Qed.

(** Lines 54 and 55. *)
Lemma flush_enters_loop hw (s : state) :
  pc s = L54 ->
  run hw 2 s =
    {| pc := L57; DMA_Cfg := DMA_Cfg s; status := status s; i := i s;
       TimeOut := TimeOut s; TxBuffer := TxBuffer s;
       trace := trace s ++
         [DCacheFlushRange (TxBuffer_addr hw)
            (IMG_LENGTH * sizeof_uint32_t)] |}.
Proof.
  intros Hpc. destruct s as [p c st j t buf tr]. cbn in Hpc. subst p.
  exec. reflexivity.
Qed.

Lemma IMG_LENGTH_nat : exists K : nat, Z.of_nat K = IMG_LENGTH.
Proof. exists (Z.to_nat IMG_LENGTH). unfold IMG_LENGTH. lia. Qed.

Lemma main_reaches_loop hw :
  XAxiDma_LookupConfig hw (DMA_DEV_ID hw) <> 0 ->
  XAxiDma_CfgInitialize hw (XAxiDma_LookupConfig hw (DMA_DEV_ID hw))
    = XST_SUCCESS ->
  payload_present hw ->
  exists n,
    pc (main hw n) = L57 /\
    trace (main hw n) =
      boot_trace hw ++
      [DCacheFlushRange (TxBuffer_addr hw) (IMG_LENGTH * sizeof_uint32_t)].
Proof.
  intros Hcfg Hinit Hpay.
  pose proof (main_boots hw Hcfg Hinit) as Hboot. rewrite main_eq in Hboot.
  destruct IMG_LENGTH_nat as [K HK].
  destruct (copy_rounds hw K
              {| pc := L49_test;
                 DMA_Cfg := XAxiDma_LookupConfig hw (DMA_DEV_ID hw);
                 status := XST_SUCCESS; i := 0; TimeOut := 0;
                 TxBuffer := TxBuffer_init; trace := boot_trace hw |})
    as (buf & Hrun & _ & _).
  - reflexivity.
  - cbn [i]. lia.
  - cbn [i]. lia.
  - exact TxBuffer_init_length.
  - exact Hpay.
  - cbn [DMA_Cfg status TimeOut trace] in Hrun.
    exists (7 + ((3 * K + 1) + 2))%nat. rewrite !main_eq.
    rewrite (run_add hw 7), Hboot, (run_add hw (3 * K + 1)), Hrun.
    rewrite flush_enters_loop by reflexivity. split; reflexivity.
Qed.

Lemma assertion_trace_shape hw (s : state) :
  assertion hw s ->
  unflushed (trace s) \/
  (flushed_once hw (trace s) /\ copied hw (TxBuffer s) IMG_LENGTH).
Proof.
  intros (_ & _ & H). destruct (pc s);
    try contradiction;
    try (left; exact (proj1 H));
    try (right; split; [exact (proj1 H)|exact (proj1 (proj2 H))]);
    try (right; exact H).
  match goal with o : outcome |- _ => destruct o end;
    [exact (proj2 H)|left; exact H].
Qed.

Lemma assertion_before_loop hw (s : state) :
  assertion hw s -> before_loop (pc s) = true -> unflushed (trace s).
Proof.
  intros (_ & _ & H) Hl. destruct (pc s); try discriminate Hl;
    exact (proj1 H).
Qed.

Lemma assertion_in_loop hw (s : state) :
  assertion hw s -> in_loop (pc s) = true -> flushed_once hw (trace s).
Proof.
  intros (_ & _ & H) Hl. destruct (pc s); try discriminate Hl;
    exact (proj1 H).
Qed.

(** C5. At every moment of every run, the trace holds either no flush and
    no transfer request, or exactly one flush, of the [IMG_LENGTH * 4]
    bytes at the buffer's address, with no transfer request before it and
    no flush after it, and in that case the buffer holds the payload.
    Up to line 54 nothing has been flushed; the flush statement (line 54)
    is reached with the buffer populated; inside the service loop, in
    whatever round, the single flush is there.  When the lookup and the
    initialization succeed and the table is present, the program does
    reach line 57 with the flush as its latest event. *)
Theorem flush_once_before_first_transfer hw :
  (forall n,
     (unflushed (trace (main hw n)) \/
      (flushed_once hw (trace (main hw n)) /\
       copied hw (TxBuffer (main hw n)) IMG_LENGTH)) /\
     (before_loop (pc (main hw n)) = true ->
        unflushed (trace (main hw n))) /\
     (pc (main hw n) = L54 ->
        copied hw (TxBuffer (main hw n)) IMG_LENGTH) /\
     (in_loop (pc (main hw n)) = true ->
        flushed_once hw (trace (main hw n)))) /\
  (XAxiDma_LookupConfig hw (DMA_DEV_ID hw) <> 0 ->
   XAxiDma_CfgInitialize hw (XAxiDma_LookupConfig hw (DMA_DEV_ID hw))
     = XST_SUCCESS ->
   payload_present hw ->
   exists n,
     pc (main hw n) = L57 /\
     trace (main hw n) =
       boot_trace hw ++
       [DCacheFlushRange (TxBuffer_addr hw) (IMG_LENGTH * sizeof_uint32_t)]).
Proof.
  split; [|apply main_reaches_loop].
  intros n. pose proof (assertion_main hw n) as Ha.
  split; [apply assertion_trace_shape; exact Ha|].
  split; [apply (assertion_before_loop hw); exact Ha|]. split.
  - intros Hpc. destruct Ha as (_ & _ & H). rewrite Hpc in H.
    exact (proj2 H).
  - apply assertion_in_loop. exact Ha.
Qed.

Lemma flush_once_before_first_transfer_witness :
  XAxiDma_LookupConfig image_board (DMA_DEV_ID image_board) <> 0 /\
  XAxiDma_CfgInitialize image_board
    (XAxiDma_LookupConfig image_board (DMA_DEV_ID image_board))
    = XST_SUCCESS /\
  payload_present image_board /\
  exists n,
    pc (main image_board n) = L57 /\
    trace (main image_board n) =
      boot_trace image_board ++
      [DCacheFlushRange 4096 (IMG_LENGTH * sizeof_uint32_t)].
Proof.
  assert (H1 : XAxiDma_LookupConfig image_board (DMA_DEV_ID image_board) <> 0)
    by discriminate.
  assert (H2 : XAxiDma_CfgInitialize image_board
                 (XAxiDma_LookupConfig image_board (DMA_DEV_ID image_board))
               = XST_SUCCESS) by reflexivity.
  split; [exact H1|]. split; [exact H2|].
  split; [exact image_board_payload_present|].
  exact (proj2 (flush_once_before_first_transfer image_board) H1 H2
           image_board_payload_present).
Defined.

(** * The service loop (lines 55 to 81) *)

(** A statement of the service loop leaves the buffer alone and leads to
    another statement of the loop or to the return of [XST_FAILURE]. *)
Lemma loop_step hw (s : state) :
  in_loop (pc s) = true ->
  TxBuffer (main_step hw s) = TxBuffer s /\
  (in_loop (pc (main_step hw s)) = true \/
   pc (main_step hw s) = Done (Returned XST_FAILURE)).
Proof.
  intros Hl. destruct s as [p c st j t buf tr]. cbn [pc] in Hl.
  destruct p; try discriminate Hl; exec;
    try (match goal with
         | |- context [if ?a =? ?b then _ else _] => destruct (a =? b)
         end; exec);
    (split; [reflexivity|]);
    first [left; reflexivity | right; reflexivity].
Qed.

(** The same from the flush of line 54 on. *)
Lemma after_population_step hw (s : state) :
  after_population (pc s) = true ->
  TxBuffer (main_step hw s) = TxBuffer s /\
  (after_population (pc (main_step hw s)) = true \/
   pc (main_step hw s) = Done (Returned XST_FAILURE)).
Proof.
  intros Hl. destruct (in_loop (pc s)) eqn:Hin.
  - destruct (loop_step hw s Hin) as [Hbuf [Hnext|Hdone]].
    + split; [exact Hbuf|]. left. unfold after_population.
      rewrite Hnext. destruct (pc (main_step hw s)); reflexivity.
    + split; [exact Hbuf|]. right. exact Hdone.
  - destruct s as [p c st j t buf tr]. cbn [pc] in Hl, Hin.
    destruct p; try discriminate Hl; try discriminate Hin.
    exec. split; [reflexivity|left; reflexivity].
Qed.

Lemma after_population_run_buffer hw (n : nat) :
  forall s,
    after_population (pc s) = true -> TxBuffer (run hw n s) = TxBuffer s.
Proof.
  induction n as [|n IH]; intros s Hl; [reflexivity|].
  rewrite run_S.
  destruct (after_population_step hw s Hl) as [Hbuf [Hnext|Hdone]].
  - rewrite IH by exact Hnext. exact Hbuf.
  - rewrite (run_Done hw n _ _ Hdone). exact Hbuf.
Qed.

(** C6. From the end of the population step on (the flush of line 54
    and every statement of the service loop, lines 55 to 81), whatever
    the hardware answers and however long the program runs, no statement
    writes [TxBuffer]: it keeps the contents it had, so every later
    transfer request is made on the same words. *)
Theorem buffer_unchanged_after_population hw (s : state) :
  after_population (pc s) = true ->
  forall n, TxBuffer (run hw n s) = TxBuffer s.
Proof. intros Hl n. apply after_population_run_buffer. exact Hl. Qed.

Lemma buffer_unchanged_after_population_witness :
  after_population (pc (at_label L57 0)) = true /\
  forall n, TxBuffer (run idle_engine n (at_label L57 0)) = [17; 34; 51; 68].
Proof.
  split; [reflexivity|].
  exact (buffer_unchanged_after_population idle_engine (at_label L57 0)
           eq_refl).
Defined.

(** Once [main] is inside the service loop its buffer holds the payload
    and stays as it is. *)
Lemma main_buffer_fixed_in_loop hw (k n : nat) :
  in_loop (pc (main hw k)) = true ->
  TxBuffer (main hw (k + n)) = TxBuffer (main hw k) /\
  copied hw (TxBuffer (main hw (k + n))) IMG_LENGTH.
Proof.
  intros Hl. rewrite !main_eq in *. rewrite run_add.
  rewrite after_population_run_buffer
    by (unfold after_population; rewrite Hl;
        destruct (pc (run hw k init)); reflexivity).
  split; [reflexivity|].
  pose proof (assertion_main hw k) as Ha. rewrite main_eq in Ha.
  destruct (assertion_trace_shape hw _ Ha) as [Hu|[_ Hc]]; [|exact Hc].
  destruct (assertion_in_loop hw _ Ha Hl) as (pre & post & Htr & _ & _).
  rewrite Htr in Hu. apply Forall_app in Hu. destruct Hu as [_ Hu].
  inversion Hu as [|e l [Hf _] _]. discriminate Hf.
Qed.

(** Three rounds of the service loop against the idle engine: the same
    request three times. *)
Example three_transfers :
  filter (fun e => is_start e = true)
    (trace (run idle_engine 30 (at_label L57 0))) =
  [SimpleTransfer 4096 692224 0 0; SimpleTransfer 4096 692224 0 0;
   SimpleTransfer 4096 692224 0 0].
Proof. vm_compute. reflexivity. Qed.

(** C7. Every transfer request in every trace of [main] names the address
    of [TxBuffer], a length of 692,224 bytes ([IMG_LENGTH] words of four
    bytes) and the direction [XAXIDMA_DMA_TO_DEVICE]; the statement of
    line 57 issues exactly that request each time it runs. *)
Theorem transfer_request_arguments hw :
  IMG_LENGTH * sizeof_uint32_t = 692224 /\
  173056 * 4 = 692224 /\
  (forall n, Forall (start_args_ok hw) (trace (main hw n))) /\
  (forall s, pc s = L57 ->
     trace (main_step hw s) =
       trace s ++
       [SimpleTransfer (TxBuffer_addr hw) 692224 XAXIDMA_DMA_TO_DEVICE
          (start_answer hw s)]).
Proof.
  split; [reflexivity|]. split; [reflexivity|]. split.
  - intros n. exact (proj1 (proj2 (assertion_main hw n))).
  - intros s Hpc. destruct s as [p c st j t buf tr]. cbn [pc] in Hpc.
    subst p. exec. reflexivity.
Qed.

Lemma transfer_request_arguments_witness :
  pc (at_label L57 0) = L57 /\
  trace (main_step idle_engine (at_label L57 0)) =
    [SimpleTransfer 4096 692224 XAXIDMA_DMA_TO_DEVICE 0].
Proof.
  split; [reflexivity|].
  exact (proj2 (proj2 (proj2 (transfer_request_arguments idle_engine)))
           (at_label L57 0) eq_refl).
Defined.

(** One round of the service loop on the four-word buffer, from the
    flush on: flush, request, one query, the two messages, next request. *)
Example service_loop_round :
  trace (run idle_engine 13 (at_label L54 0)) =
  [DCacheFlushRange 4096 692224;
   SimpleTransfer 4096 692224 0 0;
   Busy 0 0;
   xil_printf "DMA transfer completed successfully\n" [];
   xil_printf "Image sent via DMA successfully\n" [];
   SimpleTransfer 4096 692224 0 0].
Proof. vm_compute. reflexivity. Qed.

(** * Early exits (lines 34 to 46) *)

Lemma missing_config_run hw :
  XAxiDma_LookupConfig hw (DMA_DEV_ID hw) = 0 ->
  run hw 5 init =
    {| pc := Done (Returned XST_FAILURE); DMA_Cfg := 0; status := 0; i := 0;
       TimeOut := 0; TxBuffer := TxBuffer_init;
       trace := missing_config_trace hw |} /\
  forall n, (n < 5)%nat ->
    TxBuffer (run hw n init) = TxBuffer_init /\
    exists k, trace (run hw n init) = take k (missing_config_trace hw).
Proof.
  intros Hcfg. unfold init. split.
  - exec. rewrite Hcfg. exec. reflexivity.
  - intros n Hn.
    destruct n as [|[|[|[|[|n]]]]]; [| | | | |lia];
      exec; rewrite ?Hcfg; exec; (split; [reflexivity|]).
    + exists 0%nat. reflexivity.
    + exists 1%nat. reflexivity.
    + exists 2%nat. reflexivity.
    + exists 2%nat. reflexivity.
    + exists 3%nat. reflexivity.
Qed.

(** C8. When the configuration lookup returns [NULL], the whole run is:
    the welcome banner, the lookup, the message "DMA config lookup
    failed", and the return of [XST_FAILURE].  That message is printed
    once and is the last event for ever; no initialization, no write to
    the buffer, no flush, no transfer request and no busy query ever
    happens. *)
Theorem missing_config_halts hw :
  XAxiDma_LookupConfig hw (DMA_DEV_ID hw) = 0 ->
  (forall n, (5 <= n)%nat ->
     main hw n =
       {| pc := Done (Returned XST_FAILURE); DMA_Cfg := 0; status := 0;
          i := 0; TimeOut := 0; TxBuffer := TxBuffer_init;
          trace :=
            [xil_printf "Welcome from the main function\n" [];
             LookupConfig (DMA_DEV_ID hw) 0;
             xil_printf "DMA config lookup failed\n" []] |}) /\
  (forall n,
     TxBuffer (main hw n) = TxBuffer_init /\
     exists k,
       trace (main hw n) =
         take k
           [xil_printf "Welcome from the main function\n" [];
            LookupConfig (DMA_DEV_ID hw) 0;
            xil_printf "DMA config lookup failed\n" []]).
Proof.
  intros Hcfg. destruct (missing_config_run hw Hcfg) as [H5 Hlt].
  assert (Hge : forall n, (5 <= n)%nat -> run hw n init = run hw 5 init).
  { intros n Hn. rewrite H5.
    eapply run_settles; [exact H5|reflexivity|exact Hn]. }
  split.
  - intros n Hn. rewrite main_eq, (Hge n Hn). exact H5.
  - intros n. rewrite main_eq. destruct (Nat.lt_ge_cases n 5) as [Hn|Hn].
    + exact (Hlt n Hn).
    + rewrite (Hge n Hn), H5. split; [reflexivity|]. exists 3%nat. reflexivity.
Qed.

Lemma missing_config_halts_witness :
  XAxiDma_LookupConfig no_device (DMA_DEV_ID no_device) = 0 /\
  forall n, (5 <= n)%nat ->
    main no_device n =
      {| pc := Done (Returned XST_FAILURE); DMA_Cfg := 0; status := 0;
         i := 0; TimeOut := 0; TxBuffer := TxBuffer_init;
         trace :=
           [xil_printf "Welcome from the main function\n" [];
            LookupConfig 0 0;
            xil_printf "DMA config lookup failed\n" []] |}.
Proof.
  split; [reflexivity|].
  exact (proj1 (missing_config_halts no_device eq_refl)).
Defined.

Lemma init_failure_run hw :
  XAxiDma_LookupConfig hw (DMA_DEV_ID hw) <> 0 ->
  XAxiDma_CfgInitialize hw (XAxiDma_LookupConfig hw (DMA_DEV_ID hw))
    <> XST_SUCCESS ->
  run hw 7 init =
    {| pc := Done (Returned XST_FAILURE);
       DMA_Cfg := XAxiDma_LookupConfig hw (DMA_DEV_ID hw);
       status :=
         XAxiDma_CfgInitialize hw (XAxiDma_LookupConfig hw (DMA_DEV_ID hw));
       i := 0; TimeOut := 0; TxBuffer := TxBuffer_init;
       trace := init_failure_trace hw |} /\
  forall n, (n < 7)%nat ->
    TxBuffer (run hw n init) = TxBuffer_init /\
    exists k, trace (run hw n init) = take k (init_failure_trace hw).
Proof.
  intros Hcfg Hinit. unfold init. split.
  - exec. rewrite (Zeqb_false _ _ Hcfg). exec.
    rewrite (Zeqb_false _ _ Hinit). exec. reflexivity.
  - intros n Hn.
    destruct n as [|[|[|[|[|[|[|n]]]]]]]; [| | | | | | |lia];
      exec; rewrite ?(Zeqb_false _ _ Hcfg); exec;
      rewrite ?(Zeqb_false _ _ Hinit); exec; (split; [reflexivity|]).
    + exists 0%nat. reflexivity.
    + exists 1%nat. reflexivity.
    + exists 2%nat. reflexivity.
    + exists 2%nat. reflexivity.
    + exists 3%nat. reflexivity.
    + exists 3%nat. reflexivity.
    + exists 4%nat. reflexivity.
Qed.

Lemma unflushed_take (k : nat) (tr : list event) :
  unflushed tr -> unflushed (take k tr).
Proof. apply Forall_take. Qed.

Lemma TxBuffer_init_zero (j : nat) (x : Z) :
  TxBuffer_init !! j = Some x -> x = 0.
Proof.
  unfold TxBuffer_init. intros H. apply lookup_replicate in H.
  destruct H as [H _]. exact H.
Qed.

(** C10. When the configuration lookup returns [NULL] or the
    initialization does not return [XST_SUCCESS], the program returns
    [XST_FAILURE] within seven statements, and at every moment of the run
    [TxBuffer] is still the zero-initialized array and the trace holds
    neither a cache flush nor a transfer request. *)
Theorem early_failure_leaves_buffer_untouched hw :
  XAxiDma_LookupConfig hw (DMA_DEV_ID hw) = 0 \/
  XAxiDma_CfgInitialize hw (XAxiDma_LookupConfig hw (DMA_DEV_ID hw))
    <> XST_SUCCESS ->
  (forall n, (7 <= n)%nat -> pc (main hw n) = Done (Returned XST_FAILURE)) /\
  (forall n,
     TxBuffer (main hw n) = TxBuffer_init /\
     unflushed (trace (main hw n)) /\
     Forall (fun e => is_start e = false) (trace (main hw n))).
Proof.
  intros Hfail.
  assert (Hcase :
    exists (N : nat) (final : list event),
      (N <= 7)%nat /\ unflushed final /\
      pc (run hw N init) = Done (Returned XST_FAILURE) /\
      TxBuffer (run hw N init) = TxBuffer_init /\
      trace (run hw N init) = final /\
      forall n, (n < N)%nat ->
        TxBuffer (run hw n init) = TxBuffer_init /\
        exists k, trace (run hw n init) = take k final).
  { destruct (Z.eq_dec (XAxiDma_LookupConfig hw (DMA_DEV_ID hw)) 0) as [E|E].
    - destruct (missing_config_run hw E) as [H5 Hlt].
      exists 5%nat, (missing_config_trace hw). rewrite H5.
      split; [lia|]. split; [repeat constructor|].
      split; [reflexivity|]. split; [reflexivity|]. split; [reflexivity|].
      exact Hlt.
    - destruct Hfail as [Hfail|Hfail]; [contradiction|].
      destruct (init_failure_run hw E Hfail) as [H7 Hlt].
      exists 7%nat, (init_failure_trace hw). rewrite H7.
      split; [lia|]. split; [repeat constructor|].
      split; [reflexivity|]. split; [reflexivity|]. split; [reflexivity|].
      exact Hlt. }
  destruct Hcase as (N & final & HN & Hfinal & Hpc & Hbuf & Htr & Hlt).
  assert (Hge : forall n, (N <= n)%nat -> run hw n init = run hw N init).
  { intros n Hn. eapply run_settles; [reflexivity|exact Hpc|exact Hn]. }
  assert (Hquiet : forall tr, unflushed tr ->
            Forall (fun e => is_start e = false) tr).
  { intros tr Hu. eapply Forall_impl; [exact Hu|]. intros e [_ He]. exact He. }
  split.
  - intros n Hn. rewrite main_eq, Hge by lia. exact Hpc.
  - intros n. rewrite main_eq. destruct (Nat.lt_ge_cases n N) as [Hn|Hn].
    + destruct (Hlt n Hn) as [Hb [k Hk]]. rewrite Hk. split; [exact Hb|].
      split; [|apply Hquiet]; apply unflushed_take; exact Hfinal.
    + rewrite (Hge n Hn), Htr. split; [exact Hbuf|].
      split; [exact Hfinal|apply Hquiet; exact Hfinal].
Qed.

Lemma early_failure_leaves_buffer_untouched_witness :
  (XAxiDma_LookupConfig no_device (DMA_DEV_ID no_device) = 0 \/
   XAxiDma_CfgInitialize no_device
     (XAxiDma_LookupConfig no_device (DMA_DEV_ID no_device)) <> XST_SUCCESS) /\
  (XAxiDma_LookupConfig rejecting_engine (DMA_DEV_ID rejecting_engine) = 0 \/
   XAxiDma_CfgInitialize rejecting_engine
     (XAxiDma_LookupConfig rejecting_engine (DMA_DEV_ID rejecting_engine))
     <> XST_SUCCESS) /\
  (forall n, TxBuffer (main no_device n) = TxBuffer_init) /\
  (forall n, TxBuffer (main rejecting_engine n) = TxBuffer_init).
Proof.
  assert (H1 : XAxiDma_LookupConfig no_device (DMA_DEV_ID no_device) = 0 \/
               XAxiDma_CfgInitialize no_device
                 (XAxiDma_LookupConfig no_device (DMA_DEV_ID no_device))
               <> XST_SUCCESS) by (left; reflexivity).
  assert (H2 : XAxiDma_LookupConfig rejecting_engine
                 (DMA_DEV_ID rejecting_engine) = 0 \/
               XAxiDma_CfgInitialize rejecting_engine
                 (XAxiDma_LookupConfig rejecting_engine
                    (DMA_DEV_ID rejecting_engine))
               <> XST_SUCCESS) by (right; discriminate).
  split; [exact H1|]. split; [exact H2|]. split; intros n.
  - exact (proj1 (proj2 (early_failure_leaves_buffer_untouched no_device H1)
                    n)).
  - exact (proj1 (proj2 (early_failure_leaves_buffer_untouched
                           rejecting_engine H2) n)).
Defined.

(** The board without a configuration entry: three events, then nothing
    more however long one waits. *)
Example lookup_failure_run :
  trace (main no_device 40) =
  [xil_printf "Welcome from the main function\n" [];
   LookupConfig 0 0;
   xil_printf "DMA config lookup failed\n" []] /\
  pc (main no_device 40) = Done (Returned 1).
Proof. vm_compute. split; reflexivity. Qed.

(** * Ways out of [main] *)

(** C9. No run of [main] reaches the idle loop of line 83 or the
    [return 0] of line 87, and whenever [main] has returned, the value is
    [XST_FAILURE], which is not 0.  A statement of the service loop is
    followed by a statement of the service loop or by the return of
    [XST_FAILURE]: the loop has no other exit. *)
Theorem main_never_returns_success hw :
  XST_FAILURE <> 0 /\
  (forall n,
     pc (main hw n) <> L83 /\
     pc (main hw n) <> L87 /\
     pc (main hw n) <> Done (Returned 0) /\
     forall c, pc (main hw n) = Done (Returned c) -> c = XST_FAILURE) /\
  (forall s,
     in_loop (pc s) = true ->
     in_loop (pc (main_step hw s)) = true \/
     pc (main_step hw s) = Done (Returned XST_FAILURE)).
Proof.
  split; [discriminate|]. split.
  - intros n. destruct (assertion_main hw n) as (_ & _ & H).
    destruct (pc (main hw n));
      try contradiction;
      (split; [discriminate|]); (split; [discriminate|]);
      (split; [|intros c Hc; try discriminate Hc]); try discriminate.
    + match goal with o : outcome |- _ => destruct o end; [|discriminate].
      destruct H as [-> _]. discriminate.
    + injection Hc as ->. destruct H as [-> _]. reflexivity.
  - intros s Hl. exact (proj2 (loop_step hw s Hl)).
Qed.

Lemma main_never_returns_success_witness :
  pc (main no_device 5) = Done (Returned 1) /\ 1 = XST_FAILURE /\
  in_loop (pc (at_label L75 0)) = true /\
  (in_loop (pc (main_step busy_engine (at_label L75 0))) = true \/
   pc (main_step busy_engine (at_label L75 0)) = Done (Returned XST_FAILURE)).
Proof.
  assert (H1 : pc (main no_device 5) = Done (Returned 1))
    by (vm_compute; reflexivity).
  assert (H2 : in_loop (pc (at_label L75 0)) = true) by reflexivity.
  destruct (main_never_returns_success no_device) as (_ & Hret & _).
  destruct (main_never_returns_success busy_engine) as (_ & _ & Hloop).
  split; [exact H1|].
  split; [exact (proj2 (proj2 (proj2 (Hret 5%nat))) 1 H1)|].
  split; [exact H2|]. exact (Hloop (at_label L75 0) H2).
Defined.

(** * Every attempt ends *)

(** One round of the polling loop with a busy answer (lines 66 to 72). *)
Lemma busy_round hw (s : state) :
  pc s = L66 ->
  TimeOut s <> 0 ->
  busy_answer hw s <> 0 ->
  run hw 4 s =
    {| pc := L66; DMA_Cfg := DMA_Cfg s; status := status s; i := i s;
       TimeOut := TimeOut s - 1; TxBuffer := TxBuffer s;
       trace := trace s ++
         [Busy XAXIDMA_DMA_TO_DEVICE (busy_answer hw s); usleep 1] |}.
Proof.
  intros Hpc Ht Hb. destruct s as [p c st j t buf tr]. cbn in Hpc, Ht. subst p.
  unfold busy_answer in *. cbn [trace] in *.
  exec. rewrite (Zeqb_false t 0) by exact Ht. exec.
  rewrite (Zeqb_false _ 0) by exact Hb. exec.
  rewrite <- app_assoc. reflexivity.
Qed.

(** Lines 57 to 60 when the request is rejected. *)
Lemma rejected_request_returns hw (s : state) :
  pc s = L57 ->
  start_answer hw s <> XST_SUCCESS ->
  run hw 4 s =
    {| pc := Done (Returned XST_FAILURE); DMA_Cfg := DMA_Cfg s;
       status := start_answer hw s; i := i s; TimeOut := TimeOut s;
       TxBuffer := TxBuffer s;
       trace := trace s ++
         [start_event hw (start_answer hw s);
          xil_printf "DMA transfer failed - %x\n" [start_answer hw s]] |}.
Proof.
  intros Hpc Hst. destruct s as [p c st j t buf tr]. cbn in Hpc. subst p.
  unfold start_answer in *. cbn [trace] in *.
  exec. rewrite (Zeqb_false _ _ Hst). exec.
  rewrite <- app_assoc. reflexivity.
Qed.

(** The polling loop entered with a budget of [k]: it is left after at
    most [k] busy answers, by an idle answer or with the budget used up. *)
Lemma poll_outcome hw (k : nat) :
  forall s,
    pc s = L66 ->
    TimeOut s = Z.of_nat k ->
    exists (n : nat) (rs : list Z),
      (n <= 4 * k + 6)%nat /\
      busy_answers hw (trace s) rs /\
      (((length rs < k)%nat /\
        XAxiDma_Busy hw (trace s ++ polls rs) XAXIDMA_DMA_TO_DEVICE = 0 /\
        run hw n s =
          {| pc := L55; DMA_Cfg := DMA_Cfg s; status := status s; i := i s;
             TimeOut := TimeOut s - Z.of_nat (length rs);
             TxBuffer := TxBuffer s;
             trace := trace s ++ polls rs ++ completion_events |}) \/
       (length rs = k /\
        run hw n s =
          {| pc := Done (Returned XST_FAILURE); DMA_Cfg := DMA_Cfg s;
             status := status s; i := i s; TimeOut := 0;
             TxBuffer := TxBuffer s;
             trace := trace s ++ polls rs ++
                      [xil_printf "DMA transfer timed out\n" []] |})).
Proof.
  induction k as [|k IH]; intros s Hpc Ht.
  - exists 4%nat, []. split; [lia|]. split; [exact I|]. right.
    split; [reflexivity|]. rewrite exhausted_budget_returns by assumption.
    reflexivity.
  - destruct (Z.eq_dec (busy_answer hw s) 0) as [Hb|Hb].
    + exists 6%nat, []. split; [lia|]. split; [exact I|]. left.
      split; [cbn; lia|]. split.
      * cbn [polls flat_map]. rewrite app_nil_r. exact Hb.
      * rewrite idle_answer_leaves_loop by (assumption || lia).
        cbn [polls flat_map length Z.of_nat app]. f_equal. lia.
    + pose proof (busy_round hw s Hpc ltac:(lia) Hb) as H4.
      destruct (IH (run hw 4 s)) as (n & rs & Hn & Hans & Hout).
      * rewrite H4. reflexivity.
      * rewrite H4. cbn [TimeOut]. lia.
      * exists (4 + n)%nat, (busy_answer hw s :: rs). split; [lia|].
        rewrite H4 in Hans, Hout.
        cbn [DMA_Cfg status i TimeOut TxBuffer trace] in Hans, Hout.
        split; [split; [reflexivity|split; [exact Hb|exact Hans]]|].
        rewrite run_add, H4, polls_cons. cbn [length].
        destruct Hout as [(Hlen & Hidle & Hrun)|(Hlen & Hrun)].
        -- left. split; [lia|]. split.
           ++ rewrite <- Hidle. rewrite <- !app_assoc. reflexivity.
           ++ rewrite Hrun. f_equal; [lia|].
              rewrite <- !app_assoc. reflexivity.
        -- right. split; [lia|]. rewrite Hrun. f_equal.
           rewrite <- !app_assoc. reflexivity.
Qed.

(** X1. Whatever the hardware answers, a transfer attempt (line 57 on)
    ends within [4 * POLL_TIMEOUT_COUNTER + 10] statements, after at most
    1,000,000 busy queries, in one of three ways: the request is
    rejected and [main] returns; the engine says busy to fewer than
    1,000,000 queries and then idle, and line 57 is reached again with
    the budget that is left; or the engine says busy 1,000,000 times and
    [main] returns after the timeout message. *)
Theorem attempt_ends hw (s : state) :
  pc s = L57 ->
  exists (n : nat) (rs : list Z),
    Z.of_nat n <= 4 * POLL_TIMEOUT_COUNTER + 10 /\
    Z.of_nat (length rs) <= POLL_TIMEOUT_COUNTER /\
    ((start_answer hw s <> XST_SUCCESS /\ rs = [] /\
      run hw n s =
        {| pc := Done (Returned XST_FAILURE); DMA_Cfg := DMA_Cfg s;
           status := start_answer hw s; i := i s; TimeOut := TimeOut s;
           TxBuffer := TxBuffer s;
           trace := trace s ++
             [start_event hw (start_answer hw s);
              xil_printf "DMA transfer failed - %x\n"
                [start_answer hw s]] |}) \/
     (start_answer hw s = XST_SUCCESS /\
      busy_answers hw (trace s ++ [start_event hw XST_SUCCESS]) rs /\
      Z.of_nat (length rs) < POLL_TIMEOUT_COUNTER /\
      XAxiDma_Busy hw (trace s ++ [start_event hw XST_SUCCESS] ++ polls rs)
        XAXIDMA_DMA_TO_DEVICE = 0 /\
      run hw n s =
        {| pc := L57; DMA_Cfg := DMA_Cfg s; status := XST_SUCCESS;
           i := i s;
           TimeOut := POLL_TIMEOUT_COUNTER - Z.of_nat (length rs);
           TxBuffer := TxBuffer s;
           trace := trace s ++ [start_event hw XST_SUCCESS] ++ polls rs ++
                    completion_events |}) \/
     (start_answer hw s = XST_SUCCESS /\
      busy_answers hw (trace s ++ [start_event hw XST_SUCCESS]) rs /\
      Z.of_nat (length rs) = POLL_TIMEOUT_COUNTER /\
      run hw n s =
        {| pc := Done (Returned XST_FAILURE); DMA_Cfg := DMA_Cfg s;
           status := XST_SUCCESS; i := i s; TimeOut := 0;
           TxBuffer := TxBuffer s;
           trace := trace s ++ [start_event hw XST_SUCCESS] ++ polls rs ++
                    [xil_printf "DMA transfer timed out\n" []] |})).
Proof.
  intros Hpc.
  destruct (Z.eq_dec (start_answer hw s) XST_SUCCESS) as [Hst|Hst].
  - pose proof (attempt_enters_poll_loop hw s Hpc Hst) as H3.
    assert (HK : exists K : nat, Z.of_nat K = POLL_TIMEOUT_COUNTER).
    { exists (Z.to_nat POLL_TIMEOUT_COUNTER).
      unfold POLL_TIMEOUT_COUNTER. lia. }
    destruct HK as [K HK].
    destruct (poll_outcome hw K (run hw 3 s)) as (n & rs & Hn & Hans & Hout).
    + rewrite H3. reflexivity.
    + rewrite H3. cbn [TimeOut]. lia.
    + rewrite H3 in Hans, Hout.
      cbn [DMA_Cfg status i TimeOut TxBuffer trace] in Hans, Hout.
      destruct Hout as [(Hlen & Hidle & Hrun)|(Hlen & Hrun)].
      * exists (3 + (n + 1))%nat, rs. split; [lia|]. split; [lia|].
        right. left. split; [exact Hst|]. split; [exact Hans|].
        split; [lia|]. split.
        -- rewrite app_assoc. exact Hidle.
        -- rewrite run_add, H3, run_add, Hrun. exec.
           rewrite <- !app_assoc. reflexivity.
      * exists (3 + n)%nat, rs. split; [lia|]. split; [lia|].
        right. right. split; [exact Hst|]. split; [exact Hans|].
        split; [lia|]. rewrite run_add, H3, Hrun.
        rewrite <- !app_assoc. reflexivity.
  - exists 4%nat, []. split; [unfold POLL_TIMEOUT_COUNTER; lia|].
    split; [unfold POLL_TIMEOUT_COUNTER; cbn; lia|]. left.
    split; [exact Hst|]. split; [reflexivity|].
    apply rejected_request_returns; assumption.
Qed.

Lemma attempt_ends_witness :
  pc (at_label L57 0) = L57 /\
  exists (n : nat) (rs : list Z),
    Z.of_nat n <= 4 * POLL_TIMEOUT_COUNTER + 10 /\
    Z.of_nat (length rs) <= POLL_TIMEOUT_COUNTER /\
    trace (run idle_engine n (at_label L57 0)) =
      [start_event idle_engine XST_SUCCESS] ++ polls rs ++ completion_events.
Proof.
  split; [reflexivity|].
  destruct (attempt_ends idle_engine (at_label L57 0) eq_refl)
    as (n & rs & Hn & Hlen &
        [(Hst & _)|[(_ & _ & _ & _ & Hrun)|(_ & Hans & Hfull & _)]]).
  - exfalso. apply Hst. reflexivity.
  - exists n, rs. split; [exact Hn|]. split; [exact Hlen|].
    rewrite Hrun. reflexivity.
  - exfalso. destruct rs as [|r rs]; [discriminate Hfull|].
    destruct Hans as (Hr & Hr0 & _). apply Hr0. exact Hr.
Defined.

(** * The events come in a fixed order *)

Lemma ends_with_snoc (tr : list event) (e : event) : ends_with (tr ++ [e]) e.
Proof. exists tr. reflexivity. Qed.

Lemma ordered_nil hw : ordered hw [].
Proof.
  intros pre e1 e2 post H. destruct pre; discriminate H.
Qed.

Lemma ordered_first hw (e : event) : ordered hw ([] ++ [e]).
Proof.
  intros pre e1 e2 post H. destruct pre as [|a [|b pre]]; discriminate H.
Qed.

Lemma ordered_snoc hw (tr : list event) (e0 e : event) :
  ordered hw tr -> ends_with tr e0 -> next_event hw e0 e ->
  ordered hw (tr ++ [e]).
Proof.
  intros Htr [tr' ->] Hnext pre e1 e2 post H.
  destruct post as [|x post _] using rev_ind.
  - change (pre ++ [e1; e2]) with (pre ++ [e1] ++ [e2]) in H.
    rewrite app_assoc in H. apply app_inj_tail in H. destruct H as [H <-].
    apply app_inj_tail in H. destruct H as [_ <-]. exact Hnext.
  - change (pre ++ e1 :: e2 :: post ++ [x])
      with (pre ++ (e1 :: e2 :: post) ++ [x]) in H.
    rewrite app_assoc in H. apply app_inj_tail in H. destruct H as [H _].
    exact (Htr pre e1 e2 post H).
Qed.

Lemma order_assertion_init hw : order_assertion hw init.
Proof. split; [apply ordered_nil|reflexivity]. Qed.

Ltac order_facts :=
  first
    [ assumption
    | eassumption
    | exact I
    | apply ends_with_snoc
    | apply ordered_first
    | eapply ordered_snoc;
        [eassumption|eassumption|constructor; assumption]
    | discriminate
    | unfold POLL_TIMEOUT_COUNTER; lia ].

Ltac order_goal :=
  lazymatch goal with
  | |- _ /\ _ => split; order_goal
  | |- _ \/ _ => first [solve [left; order_goal] | solve [right; order_goal]]
  | |- exists _, _ => eexists; order_goal
  | |- _ => order_facts
  end.

Lemma order_assertion_step hw (s : state) :
  order_assertion hw s -> order_assertion hw (main_step hw s).
Proof.
  destruct s as [p c st j t buf tr]. unfold order_assertion.
  cbn [pc trace DMA_Cfg status TimeOut].
  intros [Hord H].
  destruct p; exec;
    try (match goal with
         | |- context [if ?a =? ?b then _ else _] =>
             destruct (Z.eqb_spec a b)
         | |- context [if ?a <? ?b then _ else _] => destruct (a <? b)
         | |- context [match ?l !! ?k with _ => _ end] => destruct (l !! k)
         end; exec);
    repeat match goal with
           | H : _ /\ _ |- _ => destruct H
           | H : _ \/ _ |- _ => destruct H
           | H : exists _, _ |- _ => destruct H
           end;
    subst;
    try match goal with
        | H : XAxiDma_Busy _ _ _ = 0 |- _ => rewrite H
        end;
    solve [order_goal].
Qed.

Lemma order_assertion_run hw (n : nat) :
  forall s, order_assertion hw s -> order_assertion hw (run hw n s).
Proof.
  induction n as [|n IH]; intros s Hs; [exact Hs|].
  rewrite run_S. apply IH, order_assertion_step, Hs.
Qed.

Lemma main_ordered hw (n : nat) : ordered hw (trace (main hw n)).
Proof.
  exact (proj1 (order_assertion_run hw n init (order_assertion_init hw))).
Qed.

(** The first statement prints the banner; every later trace starts
    with it. *)
Lemma main_first_event hw (n : nat) (e : event) (post : list event) :
  trace (main hw n) = e :: post ->
  e = xil_printf "Welcome from the main function\n" [].
Proof.
  intros H. destruct n as [|n]; [discriminate H|].
  destruct (trace_prefix hw 1 (S n) init ltac:(lia)) as [evs Hevs].
  rewrite main_eq in H. rewrite Hevs in H. injection H as <- _. reflexivity.
Qed.

(** X2. In every trace of [main] the first event is the welcome banner
    and each event is followed only by what [next_event] allows: the
    lookup, then its failure message or the initialization, then its
    message, the flush, and rounds of request, queries with waits, and
    messages; a failure message carries the value the failed call
    returned, and nothing follows a failure message. *)
Theorem events_in_order hw (n : nat) :
  (forall e post,
     trace (main hw n) = e :: post ->
     e = xil_printf "Welcome from the main function\n" []) /\
  (forall pre e1 e2 post,
     trace (main hw n) = pre ++ e1 :: e2 :: post -> next_event hw e1 e2) /\
  (forall pre e1 e2 post,
     trace (main hw n) = pre ++ e1 :: e2 :: post -> ~ failure_message e1).
Proof.
  split; [intros e post; apply main_first_event|]. split.
  - exact (main_ordered hw n).
  - intros pre e1 e2 post Htr He1.
    pose proof (main_ordered hw n pre e1 e2 post Htr) as Hnext.
    destruct He1 as [-> | [[r ->] | [[r ->] | ->]]]; inversion Hnext.
Qed.

Lemma events_in_order_witness :
  trace (main no_device 5) =
    [] ++ xil_printf "Welcome from the main function\n" []
       :: LookupConfig 0 0
       :: [xil_printf "DMA config lookup failed\n" []] /\
  next_event no_device
    (xil_printf "Welcome from the main function\n" []) (LookupConfig 0 0).
Proof.
  assert (H : trace (main no_device 5) =
    [] ++ xil_printf "Welcome from the main function\n" []
       :: LookupConfig 0 0
       :: [xil_printf "DMA config lookup failed\n" []])
    by (vm_compute; reflexivity).
  split; [exact H|].
  exact (proj1 (proj2 (events_in_order no_device 5)) _ _ _ _ H).
Defined.

(** * [main] returns only after a failure *)

Lemma polls_snoc (rs : list Z) (r : Z) :
  polls (rs ++ [r]) = polls rs ++ [Busy XAXIDMA_DMA_TO_DEVICE r; usleep 1].
Proof.
  unfold polls. rewrite flat_map_app. cbn [flat_map].
  rewrite app_nil_r. reflexivity.
Qed.

Lemma busy_answers_snoc hw (rs : list Z) :
  forall (tr : list event) (r : Z),
    busy_answers hw tr rs ->
    r = XAxiDma_Busy hw (tr ++ polls rs) XAXIDMA_DMA_TO_DEVICE ->
    r <> 0 ->
    busy_answers hw tr (rs ++ [r]).
Proof.
  induction rs as [|a rs IH]; intros tr r Hrs Hr Hr0.
  - cbn [polls flat_map] in Hr. rewrite app_nil_r in Hr.
    split; [exact Hr|]. split; [exact Hr0|exact I].
  - destruct Hrs as (Ha & Ha0 & Hrs). split; [exact Ha|].
    split; [exact Ha0|]. apply IH; [exact Hrs| |exact Hr0].
    rewrite Hr, polls_cons, app_assoc. reflexivity.
Qed.

Lemma polling_start hw (tr : list event) :
  accepted hw tr -> polling hw (tr ++ [start_event hw XST_SUCCESS]) [].
Proof.
  intros Hacc. exists tr. split; [exact Hacc|]. split; [exact I|].
  reflexivity.
Qed.

Lemma polling_snoc hw (tr : list event) (rs : list Z) (r : Z) :
  polling hw tr rs ->
  r = XAxiDma_Busy hw tr XAXIDMA_DMA_TO_DEVICE ->
  r <> 0 ->
  polling hw ((tr ++ [Busy XAXIDMA_DMA_TO_DEVICE r]) ++ [usleep 1])
    (rs ++ [r]).
Proof.
  intros (tr' & Hacc & Hrs & ->) Hr Hr0. exists tr'. split; [exact Hacc|].
  split.
  - apply busy_answers_snoc; [exact Hrs| |exact Hr0].
    rewrite Hr, <- app_assoc. reflexivity.
  - rewrite polls_snoc, <- !app_assoc. reflexivity.
Qed.

Lemma cause_assertion_init hw : cause_assertion hw init.
Proof. reflexivity. Qed.

Lemma cause_assertion_step hw (s : state) :
  cause_assertion hw s -> cause_assertion hw (main_step hw s).
Proof.
  destruct s as [p c st j t buf tr]. unfold cause_assertion.
  cbn [pc trace DMA_Cfg status TimeOut].
  intros H.
  destruct p; exec;
    try (match goal with
         | |- context [if ?a =? ?b then _ else _] =>
             destruct (Z.eqb_spec a b)
         | |- context [if ?a <? ?b then _ else _] => destruct (a <? b)
         | |- context [match ?l !! ?k with _ => _ end] => destruct (l !! k)
         end; exec);
    try exact I; try contradiction.
  - (* line 31 *) subst tr. reflexivity.
  - (* line 34 *) subst tr. split; reflexivity.
  - (* line 35, NULL *) destruct H as [Hc Htr]. split; congruence.
  - (* line 35 *) destruct H as [Hc Htr].
    split; [exact Hc|]. split; [assumption|exact Htr].
  - (* line 36 *) destruct H as [Hc ->]. split; [exact Hc|reflexivity].
  - (* line 37 *) split; [reflexivity|]. left. exact H.
  - (* line 40 *) destruct H as (Hc & Hc0 & ->).
    split; [exact Hc|]. split; [exact Hc0|]. split; reflexivity.
  - (* line 41 *) destruct H as (Hc & Hc0 & Hst & Htr).
    split; [exact Hc|]. split; [exact Hc0|]. split; [exact Hst|].
    split; [assumption|exact Htr].
  - (* line 42 *) destruct H as (Hc & Hc0 & Hst & Hst0 & Htr).
    split; [congruence|]. split; [congruence|].
    rewrite Htr. unfold init_failure_trace. cbn [app]. congruence.
  - (* line 43 *) split; [reflexivity|]. right. left. exact H.
  - (* line 57 *) exists tr. split; reflexivity.
  - (* line 58, accepted *) destruct H as (tr' & Hst & ->).
    replace st with XST_SUCCESS by congruence.
    apply polling_start. unfold accepted. congruence.
  - (* line 58, rejected *) destruct H as (tr' & Hst & Htr).
    exists tr'. split; [exact Hst|]. split; [assumption|exact Htr].
  - (* line 59 *) destruct H as (tr' & Hst & Hst0 & ->).
    exists tr', st. split; [exact Hst|]. split; [exact Hst0|].
    rewrite <- app_assoc. reflexivity.
  - (* line 60 *) split; [reflexivity|]. right. right. left. exact H.
  - (* line 65 *) exists []. split; [exact H|]. cbn. lia.
  - (* line 66, budget used up *) intros _. destruct H as (rs & Hp & Hlen).
    exists rs. split; [exact Hp|]. lia.
  - (* line 66 *) destruct H as (rs & Hp & Hlen).
    exists rs. split; [exact Hp|]. split; [exact Hlen|assumption].
  - (* line 67, idle *) destruct H as (rs & _ & _ & Ht). exact Ht.
  - (* line 67, busy *) destruct H as (rs & Hp & Hlen & Ht).
    exists (rs ++ [XAxiDma_Busy hw tr XAXIDMA_DMA_TO_DEVICE]). split.
    + apply polling_snoc; [exact Hp|reflexivity|assumption].
    + rewrite length_app. cbn [length]. lia.
  - (* line 68 *) exact H.
  - (* line 71 *) destruct H as (rs & Hp & Hlen).
    exists rs. split; [exact Hp|]. lia.
  - (* line 72 *) exact H.
  - (* line 75 *) apply H. assumption.
  - (* line 76 *) destruct H as (rs & (tr' & Hacc & Hrs & ->) & Hlen).
    exists tr', rs. split; [exact Hacc|]. split; [exact Hrs|].
    split; [exact Hlen|]. rewrite <- !app_assoc. reflexivity.
  - (* line 77 *) split; [reflexivity|]. right. right. right. exact H.
  - (* Done *) exact H.
Qed.

Lemma cause_assertion_run hw (n : nat) :
  forall s, cause_assertion hw s -> cause_assertion hw (run hw n s).
Proof.
  induction n as [|n IH]; intros s Hs; [exact Hs|].
  rewrite run_S. apply IH, cause_assertion_step, Hs.
Qed.

Lemma main_return_cause hw (n : nat) (c : Z) :
  pc (main hw n) = Done (Returned c) ->
  c = XST_FAILURE /\
  (ended_by_missing_config hw (trace (main hw n)) \/
   ended_by_init_failure hw (trace (main hw n)) \/
   ended_by_rejection hw (trace (main hw n)) \/
   ended_by_timeout hw (trace (main hw n))).
Proof.
  intros Hpc.
  pose proof (cause_assertion_run hw n init (cause_assertion_init hw)) as H.
  rewrite <- main_eq in H. unfold cause_assertion in H.
  rewrite Hpc in H. exact H.
Qed.

(** X4. Whenever [main] has returned, the hardware made it: either the
    lookup returned [NULL], or the initialization did not return
    [XST_SUCCESS], or the driver answered a request with something else
    than [XST_SUCCESS], or the engine answered busy to 1,000,000
    consecutive queries after an accepted request.  The trace ends with
    the failing call, the answers and the message of that failure: the
    timeout is never reported after fewer than 1,000,000 busy answers,
    and [main] never stops without a message. *)
Theorem main_returns_only_after_failure hw (n : nat) (c : Z) :
  pc (main hw n) = Done (Returned c) ->
  c = XST_FAILURE /\
  (ended_by_missing_config hw (trace (main hw n)) \/
   ended_by_init_failure hw (trace (main hw n)) \/
   ended_by_rejection hw (trace (main hw n)) \/
   ended_by_timeout hw (trace (main hw n))).
Proof. apply main_return_cause. Qed.

Lemma main_returns_only_after_failure_witness :
  pc (main no_device 5) = Done (Returned 1) /\
  1 = XST_FAILURE /\
  (ended_by_missing_config no_device (trace (main no_device 5)) \/
   ended_by_init_failure no_device (trace (main no_device 5)) \/
   ended_by_rejection no_device (trace (main no_device 5)) \/
   ended_by_timeout no_device (trace (main no_device 5))).
Proof.
  assert (H : pc (main no_device 5) = Done (Returned 1))
    by (vm_compute; reflexivity).
  split; [exact H|].
  exact (main_returns_only_after_failure no_device 5 1 H).
Defined.

(** * Requests are made one at a time *)

Lemma before_request hw (e1 e2 : event) :
  next_event hw e1 e2 -> is_start e2 = true ->
  e1 = DCacheFlushRange (TxBuffer_addr hw) (IMG_LENGTH * sizeof_uint32_t) \/
  e1 = xil_printf "Image sent via DMA successfully\n" [].
Proof.
  intros H He. destruct H; cbn in He; try discriminate He;
    [left|right]; reflexivity.
Qed.

Lemma before_sent hw (e1 : event) :
  next_event hw e1 (xil_printf "Image sent via DMA successfully\n" []) ->
  e1 = xil_printf "DMA transfer completed successfully\n" [].
Proof. intros H. inversion H. reflexivity. Qed.

Lemma before_completed hw (e1 : event) :
  next_event hw e1 (xil_printf "DMA transfer completed successfully\n" []) ->
  e1 = Busy XAXIDMA_DMA_TO_DEVICE 0.
Proof. intros H. inversion H. reflexivity. Qed.

(** The event before a given one, in a trace of [main]. *)
Lemma main_predecessor hw (n : nat) (pre : list event) (e : event)
    (post : list event) :
  trace (main hw n) = pre ++ e :: post ->
  e <> xil_printf "Welcome from the main function\n" [] ->
  exists p e0, pre = p ++ [e0] /\ next_event hw e0 e.
Proof.
  intros Htr He. destruct pre as [|x pre _] using rev_ind.
  - exfalso. apply He. exact (main_first_event hw n e post Htr).
  - exists pre, x. split; [reflexivity|].
    apply (main_ordered hw n pre x e post).
    rewrite Htr, <- app_assoc. reflexivity.
Qed.

Lemma main_request_position hw (n : nat) (pre : list event) (e : event)
    (post : list event) :
  trace (main hw n) = pre ++ e :: post ->
  is_start e = true ->
  (exists p,
     pre = p ++ [DCacheFlushRange (TxBuffer_addr hw)
                   (IMG_LENGTH * sizeof_uint32_t)]) \/
  (exists p, pre = p ++ completion_events).
Proof.
  intros Htr He.
  destruct (main_predecessor hw n pre e post Htr) as (p1 & e1 & -> & H1).
  { intros ->. discriminate He. }
  destruct (before_request hw e1 e H1 He) as [-> | ->].
  { left. exists p1. reflexivity. }
  right. rewrite <- app_assoc in Htr.
  destruct (main_predecessor hw n p1 _ _ Htr) as (p2 & e2 & -> & H2).
  { discriminate. }
  apply before_sent in H2. subst e2. rewrite <- app_assoc in Htr.
  destruct (main_predecessor hw n p2 _ _ Htr) as (p3 & e3 & -> & H3).
  { discriminate. }
  apply before_completed in H3. subst e3.
  exists p3. unfold completion_events. rewrite <- !app_assoc. reflexivity.
Qed.

(** X3. In every trace of [main], a transfer request comes directly
    after the cache flush (the first request) or directly after an idle
    answer of the engine and the two completion messages (every later
    request): no request is made while the previous transfer is still
    reported busy. *)
Theorem requests_are_serial hw (n : nat) (pre : list event) (e : event)
    (post : list event) :
  trace (main hw n) = pre ++ e :: post ->
  is_start e = true ->
  (exists p,
     pre = p ++ [DCacheFlushRange (TxBuffer_addr hw)
                   (IMG_LENGTH * sizeof_uint32_t)]) \/
  (exists p,
     pre = p ++ [Busy XAXIDMA_DMA_TO_DEVICE 0;
                 xil_printf "DMA transfer completed successfully\n" [];
                 xil_printf "Image sent via DMA successfully\n" []]).
Proof. apply main_request_position. Qed.

(** Line 57 adds the request to the trace. *)
Lemma request_step hw (s : state) :
  pc s = L57 ->
  trace (main_step hw s) = trace s ++ [start_event hw (start_answer hw s)].
Proof.
  intros Hpc. destruct s as [p c st j t buf tr]. cbn [pc] in Hpc. subst p.
  exec. reflexivity.
Qed.

Lemma requests_are_serial_witness :
  exists n : nat,
    trace (main image_board n) =
      (boot_trace image_board ++
       [DCacheFlushRange 4096 (IMG_LENGTH * sizeof_uint32_t)]) ++
      start_event image_board XST_SUCCESS :: [] /\
    is_start (start_event image_board XST_SUCCESS) = true /\
    ((exists p,
        boot_trace image_board ++
        [DCacheFlushRange 4096 (IMG_LENGTH * sizeof_uint32_t)] =
        p ++ [DCacheFlushRange (TxBuffer_addr image_board)
                (IMG_LENGTH * sizeof_uint32_t)]) \/
     (exists p,
        boot_trace image_board ++
        [DCacheFlushRange 4096 (IMG_LENGTH * sizeof_uint32_t)] =
        p ++ [Busy XAXIDMA_DMA_TO_DEVICE 0;
              xil_printf "DMA transfer completed successfully\n" [];
              xil_printf "Image sent via DMA successfully\n" []])).
Proof.
  destruct (main_reaches_loop image_board) as (n & Hpc & Htr).
  - discriminate.
  - reflexivity.
  - exact image_board_payload_present.
  - assert (H : trace (main image_board (n + 1)) =
      (boot_trace image_board ++
       [DCacheFlushRange 4096 (IMG_LENGTH * sizeof_uint32_t)]) ++
      start_event image_board XST_SUCCESS :: []).
    { rewrite main_eq, run_add, <- main_eq, run_S, run_O.
      rewrite request_step by exact Hpc. rewrite Htr. reflexivity. }
    exists (n + 1)%nat. split; [exact H|]. split; [reflexivity|].
    exact (requests_are_serial image_board (n + 1) _ _ _ H eq_refl).
Defined.

(** * Reads of the table and writes to the buffer *)

Lemma step_defined hw (s : state) :
  payload_present hw ->
  assertion hw s ->
  pc s <> Done Undefined ->
  pc (main_step hw s) <> Done Undefined.
Proof.
  intros Hpay (Hlen & _ & H) Hpc. destruct s as [p c st j t buf tr].
  cbn [pc TxBuffer trace i TimeOut] in *. unfold payload_present in Hpay.
  destruct p; exec;
    try (match goal with
         | |- context [if ?a =? ?b then _ else _] => destruct (a =? b)
         | |- context [if ?a <? ?b then _ else _] => destruct (a <? b)
         end; exec);
    try discriminate; try exact Hpc.
  destruct H as (_ & Hj & _).
  destruct (hex_values hw !! Z.to_nat j) eqn:Hlook; exec; [discriminate|].
  apply lookup_ge_None in Hlook. lia.
Qed.

Lemma main_defined hw (n : nat) :
  payload_present hw -> pc (main hw n) <> Done Undefined.
Proof.
  intros Hpay. induction n as [|n IH]; [discriminate|].
  replace (S n) with (n + 1)%nat by lia.
  rewrite main_eq, run_add, <- main_eq, run_S, run_O.
  apply step_defined; [exact Hpay|apply assertion_main|exact IH].
Qed.

(** X5. When the table of [img2.h] has at least [IMG_LENGTH] entries,
    [main] never reads beyond its end; and in any case the buffer keeps
    its [IMG_LENGTH] words and every write of line 50 is to an index
    inside it. *)
Theorem accesses_in_bounds hw (n : nat) :
  length (TxBuffer (main hw n)) = Z.to_nat IMG_LENGTH /\
  (pc (main hw n) = L50 ->
     0 <= i (main hw n) /\
     (Z.to_nat (i (main hw n)) < length (TxBuffer (main hw n)))%nat) /\
  (payload_present hw ->
     pc (main hw n) <> Done Undefined /\
     (pc (main hw n) = L50 ->
        is_Some (hex_values hw !! Z.to_nat (i (main hw n))))).
Proof.
  destruct (assertion_main hw n) as (Hlen & _ & H).
  split; [exact Hlen|]. split.
  - intros Hpc. rewrite Hpc in H. destruct H as (_ & Hi & _).
    split; [lia|]. rewrite Hlen. lia.
  - intros Hpay. split; [apply main_defined; exact Hpay|].
    intros Hpc. rewrite Hpc in H. destruct H as (_ & Hi & _).
    apply lookup_lt_is_Some_2. unfold payload_present in Hpay. lia.
Qed.

Lemma accesses_in_bounds_witness :
  payload_present image_board /\
  forall n, pc (main image_board n) <> Done Undefined.
Proof.
  split; [exact image_board_payload_present|].
  intros n.
  exact (proj1 (proj2 (proj2 (accesses_in_bounds image_board n))
                  image_board_payload_present)).
Defined.




(** The four-word table: the fifth read is out of bounds. *)
Example four_word_table_run :
  pc (main busy_engine 21) = Done Undefined /\
  i (main busy_engine 21) = 4 /\
  take 5 (TxBuffer (main busy_engine 21)) = [17; 34; 51; 68; 0].
Proof. vm_compute. repeat split; reflexivity. Qed.

(** * With a healthy engine the service never stops *)

Lemma requests_app (tr1 tr2 : list event) :
  requests (tr1 ++ tr2) = (requests tr1 + requests tr2)%nat.
Proof.
  induction tr1 as [|e tr1 IH]; [reflexivity|].
  cbn [app requests]. rewrite IH. lia.
Qed.

Lemma requests_polls (rs : list Z) : requests (polls rs) = O.
Proof.
  induction rs as [|r rs IH]; [reflexivity|].
  rewrite polls_cons, requests_app, IH. reflexivity.
Qed.

(** One attempt against an engine that accepts the request and does not
    stay busy for the whole budget: line 57 is reached again, with one
    more request in the trace. *)
Lemma healthy_attempt hw (s : state) :
  (forall tr, accepted hw tr) ->
  (forall tr rs,
     busy_answers hw tr rs ->
     Z.of_nat (length rs) < POLL_TIMEOUT_COUNTER) ->
  pc s = L57 ->
  exists n : nat,
    pc (run hw n s) = L57 /\
    requests (trace (run hw n s)) = S (requests (trace s)).
Proof.
  intros Hacc Hbusy Hpc.
  pose proof (attempt_enters_poll_loop hw s Hpc (Hacc (trace s))) as H3.
  assert (HK : exists K : nat, Z.of_nat K = POLL_TIMEOUT_COUNTER).
  { exists (Z.to_nat POLL_TIMEOUT_COUNTER).
    unfold POLL_TIMEOUT_COUNTER. lia. }
  destruct HK as [K HK].
  destruct (poll_outcome hw K (run hw 3 s)) as (n & rs & _ & Hans & Hout).
  - rewrite H3. reflexivity.
  - rewrite H3. cbn [TimeOut]. lia.
  - rewrite H3 in Hans, Hout.
    cbn [DMA_Cfg status i TimeOut TxBuffer trace] in Hans, Hout.
    destruct Hout as [(_ & _ & Hrun)|(Hlen & _)].
    + exists (3 + (n + 1))%nat. rewrite run_add, H3, run_add, Hrun. exec.
      split; [reflexivity|].
      rewrite !requests_app, requests_polls. cbn. lia.
    + exfalso. specialize (Hbusy _ _ Hans). lia.
Qed.

Lemma healthy_rounds hw (m : nat) :
  (forall tr, accepted hw tr) ->
  (forall tr rs,
     busy_answers hw tr rs ->
     Z.of_nat (length rs) < POLL_TIMEOUT_COUNTER) ->
  forall s,
    pc s = L57 ->
    exists n : nat,
      pc (run hw n s) = L57 /\
      requests (trace (run hw n s)) = (requests (trace s) + m)%nat.
Proof.
  intros Hacc Hbusy. induction m as [|m IH]; intros s Hpc.
  - exists O. split; [exact Hpc|]. cbn [run]. lia.
  - destruct (IH s Hpc) as (n1 & Hpc1 & Hreq1).
    destruct (healthy_attempt hw (run hw n1 s) Hacc Hbusy Hpc1)
      as (n2 & Hpc2 & Hreq2).
    exists (n1 + n2)%nat. rewrite run_add. split; [exact Hpc2|].
    rewrite Hreq2, Hreq1. lia.
Qed.

(** X7. When the lookup and the initialization succeed, the table is
    present, the driver accepts every request and the engine never says
    busy 1,000,000 times in a row, [main] never returns and never stops:
    for every number [m] there is a moment at which it is at line 57
    again with exactly [m] transfer requests made. *)
Theorem healthy_service_never_stops hw :
  XAxiDma_LookupConfig hw (DMA_DEV_ID hw) <> 0 ->
  XAxiDma_CfgInitialize hw (XAxiDma_LookupConfig hw (DMA_DEV_ID hw))
    = XST_SUCCESS ->
  payload_present hw ->
  (forall tr, accepted hw tr) ->
  (forall tr rs,
     busy_answers hw tr rs ->
     Z.of_nat (length rs) < POLL_TIMEOUT_COUNTER) ->
  (forall n o, pc (main hw n) <> Done o) /\
  (forall m : nat,
     exists n : nat,
       pc (main hw n) = L57 /\ requests (trace (main hw n)) = m).
Proof.
  intros Hcfg Hinit Hpay Hacc Hbusy. split.
  - intros n [c|] Hpc; [|exact (main_defined hw n Hpay Hpc)].
    destruct (main_return_cause hw n c Hpc)
      as (_ & [(H & _)|[(_ & H & _)|[(tr' & r & Hr & Hr0 & _)|
               (tr' & rs & _ & Hrs & Hlen & _)]]]).
    + exact (Hcfg H).
    + exact (H Hinit).
    + apply Hr0. rewrite Hr. exact (Hacc tr').
    + specialize (Hbusy _ _ Hrs). lia.
  - intros m.
    destruct (main_reaches_loop hw Hcfg Hinit Hpay) as (n0 & Hpc & Htr).
    destruct (healthy_rounds hw m Hacc Hbusy (main hw n0) Hpc)
      as (n & Hpcn & Hreq).
    exists (n0 + n)%nat. rewrite main_eq, run_add, <- main_eq.
    split; [exact Hpcn|]. rewrite Hreq, Htr. reflexivity.
Qed.

Lemma image_board_never_busy (tr : list event) (rs : list Z) :
  busy_answers image_board tr rs ->
  Z.of_nat (length rs) < POLL_TIMEOUT_COUNTER.
Proof.
  destruct rs as [|r rs]; [reflexivity|].
  intros (Hr & Hr0 & _). exfalso. apply Hr0. exact Hr.
Qed.

Lemma healthy_service_never_stops_witness :
  XAxiDma_LookupConfig image_board (DMA_DEV_ID image_board) <> 0 /\
  XAxiDma_CfgInitialize image_board
    (XAxiDma_LookupConfig image_board (DMA_DEV_ID image_board))
    = XST_SUCCESS /\
  payload_present image_board /\
  (forall tr, accepted image_board tr) /\
  (forall tr rs,
     busy_answers image_board tr rs ->
     Z.of_nat (length rs) < POLL_TIMEOUT_COUNTER) /\
  (forall n o, pc (main image_board n) <> Done o) /\
  (forall m : nat,
     exists n : nat,
       pc (main image_board n) = L57 /\
       requests (trace (main image_board n)) = m).
Proof.
  assert (H1 : XAxiDma_LookupConfig image_board (DMA_DEV_ID image_board) <> 0)
    by discriminate.
  assert (H2 : XAxiDma_CfgInitialize image_board
                 (XAxiDma_LookupConfig image_board (DMA_DEV_ID image_board))
               = XST_SUCCESS) by reflexivity.
  assert (H4 : forall tr, accepted image_board tr)
    by (intros tr; reflexivity).
  split; [exact H1|]. split; [exact H2|].
  split; [exact image_board_payload_present|]. split; [exact H4|].
  split; [exact image_board_never_busy|].
  exact (healthy_service_never_stops image_board H1 H2
           image_board_payload_present H4 image_board_never_busy).
Defined.

(** * No transfer on an engine that is not initialized *)

(** The event before a given one, if there is one. *)
Lemma main_predecessor_or_first hw (n : nat) (pre : list event) (e : event)
    (post : list event) :
  trace (main hw n) = pre ++ e :: post ->
  (pre = [] /\ e = xil_printf "Welcome from the main function\n" []) \/
  (exists p e0, pre = p ++ [e0] /\ next_event hw e0 e).
Proof.
  intros Htr. destruct pre as [|x pre _] using rev_ind.
  - left. split; [reflexivity|]. exact (main_first_event hw n e post Htr).
  - right. exists pre, x. split; [reflexivity|].
    apply (main_ordered hw n pre x e post).
    rewrite Htr, <- app_assoc. reflexivity.
Qed.

(** The banner is printed once, the lookup is the second event and the
    initialization the third. *)
Lemma main_init_position hw (n : nat) (pre : list event) (e : event)
    (post : list event) :
  trace (main hw n) = pre ++ e :: post ->
  is_init e = true ->
  pre = [xil_printf "Welcome from the main function\n" [];
         LookupConfig (DMA_DEV_ID hw)
           (XAxiDma_LookupConfig hw (DMA_DEV_ID hw))] /\
  XAxiDma_LookupConfig hw (DMA_DEV_ID hw) <> 0.
Proof.
  intros Htr He.
  destruct (main_predecessor_or_first hw n pre e post Htr)
    as [[_ ->]|(p1 & e1 & -> & H1)]; [discriminate He|].
  inversion H1; subst; try discriminate He. clear He.
  rewrite <- app_assoc in Htr.
  destruct (main_predecessor_or_first hw n p1 _ _ Htr)
    as [[_ Hw]|(p2 & e2 & -> & H2)]; [discriminate Hw|].
  inversion H2; subst.
  rewrite <- app_assoc in Htr.
  destruct (main_predecessor_or_first hw n p2 _ _ Htr)
    as [[-> _]|(p3 & e3 & -> & H3)]; [|inversion H3].
  split; [reflexivity|assumption].
Qed.

Lemma boot_trace_no_request hw (e : event) :
  e ∈ boot_trace hw -> is_start e = false.
Proof.
  unfold boot_trace. rewrite !elem_of_cons, elem_of_nil.
  intros [-> | [-> | [-> | [-> | []]]]]; reflexivity.
Qed.

Lemma missing_config_trace_no_request hw (e : event) :
  e ∈ missing_config_trace hw -> is_start e = false.
Proof.
  unfold missing_config_trace. rewrite !elem_of_cons, elem_of_nil.
  intros [-> | [-> | [-> | []]]]; reflexivity.
Qed.

Lemma init_failure_trace_no_request hw (e : event) :
  e ∈ init_failure_trace hw -> is_start e = false.
Proof.
  unfold init_failure_trace. rewrite !elem_of_cons, elem_of_nil.
  intros [-> | [-> | [-> | [-> | []]]]]; reflexivity.
Qed.

(** An early exit leaves a trace that is an initial segment of [final]. *)
Lemma early_exit_traces hw (N : nat) (final : list event) :
  (exists o, pc (run hw N init) = Done o) ->
  trace (run hw N init) = final ->
  forall n, exists evs, final = trace (main hw n) ++ evs.
Proof.
  intros [o Hpc] Htr n. rewrite main_eq.
  destruct (Nat.le_ge_cases n N) as [Hn|Hn].
  - destruct (trace_prefix hw n N init Hn) as [evs Hevs].
    exists evs. rewrite <- Htr. exact Hevs.
  - exists []. rewrite app_nil_r.
    rewrite (run_settles hw N init _ o eq_refl Hpc n Hn). symmetry. exact Htr.
Qed.

Lemma main_request_after_boot hw (n : nat) (pre : list event) (e : event)
    (post : list event) :
  trace (main hw n) = pre ++ e :: post ->
  is_start e = true ->
  XAxiDma_LookupConfig hw (DMA_DEV_ID hw) <> 0 /\
  XAxiDma_CfgInitialize hw (XAxiDma_LookupConfig hw (DMA_DEV_ID hw))
    = XST_SUCCESS /\
  exists mid, pre = boot_trace hw ++ mid.
Proof.
  intros Htr He.
  assert (Hin : forall final evs,
            final = trace (main hw n) ++ evs -> e ∈ final).
  { intros final evs ->. rewrite Htr, !elem_of_app, elem_of_cons.
    left. right. left. reflexivity. }
  destruct (Z.eq_dec (XAxiDma_LookupConfig hw (DMA_DEV_ID hw)) 0) as [E|E].
  { exfalso. destruct (missing_config_run hw E) as [H5 _].
    destruct (early_exit_traces hw 5 (missing_config_trace hw)
                ltac:(rewrite H5; eexists; reflexivity)
                ltac:(rewrite H5; reflexivity) n) as [evs Hevs].
    pose proof (missing_config_trace_no_request hw e (Hin _ _ Hevs)).
    congruence. }
  destruct (Z.eq_dec
              (XAxiDma_CfgInitialize hw
                 (XAxiDma_LookupConfig hw (DMA_DEV_ID hw))) XST_SUCCESS)
    as [E'|E'].
  2:{ exfalso. destruct (init_failure_run hw E E') as [H7 _].
      destruct (early_exit_traces hw 7 (init_failure_trace hw)
                  ltac:(rewrite H7; eexists; reflexivity)
                  ltac:(rewrite H7; reflexivity) n) as [evs Hevs].
      pose proof (init_failure_trace_no_request hw e (Hin _ _ Hevs)).
      congruence. }
  split; [exact E|]. split; [exact E'|].
  pose proof (main_boots hw E E') as Hboot.
  assert (Hb7 : trace (main hw 7) = boot_trace hw)
    by (rewrite Hboot; reflexivity).
  destruct (Nat.le_ge_cases n 7) as [Hn|Hn].
  - exfalso. destruct (trace_prefix hw n 7 init Hn) as [evs Hevs].
    rewrite <- !main_eq, Hb7 in Hevs.
    pose proof (boot_trace_no_request hw e (Hin _ _ Hevs)). congruence.
  - destruct (trace_prefix hw 7 n init Hn) as [evs Hevs].
    rewrite <- !main_eq, Hb7, Htr in Hevs.
    apply app_eq_app in Hevs. destruct Hevs as [l [[Hpre Hl]|[Hpre Hl]]].
    + exists l. exact Hpre.
    + destruct l as [|x l].
      * exists []. rewrite app_nil_r in *. symmetry. exact Hpre.
      * exfalso. injection Hl as <- _.
        assert (e ∈ boot_trace hw)
          by (rewrite Hpre, elem_of_app, elem_of_cons; right; left;
              reflexivity).
        pose proof (boot_trace_no_request hw e H). congruence.
Qed.

(** X8. In every trace of [main], the engine is initialized at most
    once, as the third event, right after the banner and a lookup that
    did not return [NULL]; and a transfer is requested only when the
    lookup and the initialization have succeeded, after the banner, the
    lookup, the initialization and its message. *)
Theorem no_transfer_without_initialization hw (n : nat) (pre : list event)
    (e : event) (post : list event) :
  trace (main hw n) = pre ++ e :: post ->
  (is_init e = true ->
     pre = [xil_printf "Welcome from the main function\n" [];
            LookupConfig (DMA_DEV_ID hw)
              (XAxiDma_LookupConfig hw (DMA_DEV_ID hw))] /\
     XAxiDma_LookupConfig hw (DMA_DEV_ID hw) <> 0) /\
  (is_start e = true ->
     XAxiDma_LookupConfig hw (DMA_DEV_ID hw) <> 0 /\
     XAxiDma_CfgInitialize hw (XAxiDma_LookupConfig hw (DMA_DEV_ID hw))
       = XST_SUCCESS /\
     exists mid, pre = boot_trace hw ++ mid).
Proof.
  intros Htr. split.
  - apply (main_init_position hw n pre e post Htr).
  - apply (main_request_after_boot hw n pre e post Htr).
Qed.

Lemma no_transfer_without_initialization_witness :
  (trace (main rejecting_engine 7) =
     [xil_printf "Welcome from the main function\n" []; LookupConfig 0 64] ++
     CfgInitialize 64 5 :: [xil_printf "DMA init failed - %x\n" [5]] /\
   is_init (CfgInitialize 64 5) = true /\
   XAxiDma_LookupConfig rejecting_engine (DMA_DEV_ID rejecting_engine) <> 0) /\
  (exists n : nat,
     trace (main image_board n) =
       (boot_trace image_board ++
        [DCacheFlushRange 4096 (IMG_LENGTH * sizeof_uint32_t)]) ++
       start_event image_board XST_SUCCESS :: [] /\
     is_start (start_event image_board XST_SUCCESS) = true /\
     XAxiDma_CfgInitialize image_board
       (XAxiDma_LookupConfig image_board (DMA_DEV_ID image_board))
       = XST_SUCCESS).
Proof.
  split.
  - assert (H : trace (main rejecting_engine 7) =
      [xil_printf "Welcome from the main function\n" []; LookupConfig 0 64] ++
      CfgInitialize 64 5 :: [xil_printf "DMA init failed - %x\n" [5]])
      by (vm_compute; reflexivity).
    split; [exact H|]. split; [reflexivity|].
    exact (proj2 (proj1 (no_transfer_without_initialization rejecting_engine
                           7 _ _ _ H) eq_refl)).
  - destruct (main_reaches_loop image_board) as (n & Hpc & Htr).
    + discriminate.
    + reflexivity.
    + exact image_board_payload_present.
    + assert (H : trace (main image_board (n + 1)) =
        (boot_trace image_board ++
         [DCacheFlushRange 4096 (IMG_LENGTH * sizeof_uint32_t)]) ++
        start_event image_board XST_SUCCESS :: []).
      { rewrite main_eq, run_add, <- main_eq, run_S, run_O.
        rewrite request_step by exact Hpc. rewrite Htr. reflexivity. }
      exists (n + 1)%nat. split; [exact H|]. split; [reflexivity|].
      exact (proj1 (proj2 (proj2 (no_transfer_without_initialization
                                    image_board (n + 1) _ _ _ H) eq_refl))).
Defined.
